(** * configpdfprocessor: markdown price list to specification sheets

    A shallow embedding of [processor.py] (the text sanitizer, the spec
    classifier, the table parser, the normalizer fallback and the row-height
    computation of the table layout), followed by the properties of these
    functions.

    A Python [str] is a sequence of Unicode code points; it is modelled as a
    list of [N].  Python's [float] arithmetic and the Unicode case mapping
    belong to the interpreter, not to the repository: they are section
    variables of the definitions that use them. *)

From Stdlib Require Import List NArith ZArith QArith Qround String Ascii Bool Lia.
Import ListNotations.

Close Scope Q_scope.

(* ================================================================== *)
(** * Python strings *)
(* ================================================================== *)

Module PyStr.

Local Open Scope N_scope.

Definition char := N.
Definition str := list char.

(** An ASCII literal as a Python string. *)
Definition py (x : string) : str := map N_of_ascii (list_ascii_of_string x).

(** [a == b] on strings. *)
Fixpoint eqb (a b : str) : bool :=
  match a, b with
  | [], [] => true
  | x :: a', y :: b' => (x =? y) && eqb a' b'
  | _, _ => false
  end.

(** [bool(s)]: a string is truthy when it is not empty. *)
Definition nonempty (s : str) : bool :=
  match s with [] => false | _ :: _ => true end.

(** [c.isspace()] for one code point: the white space of CPython's
    [_PyUnicode_IsWhitespace]. *)
Definition isspace (c : char) : bool :=
  ((0x09 <=? c) && (c <=? 0x0D)) || ((0x1C <=? c) && (c <=? 0x20))
  || (c =? 0x85) || (c =? 0xA0) || (c =? 0x1680)
  || ((0x2000 <=? c) && (c <=? 0x200A))
  || (c =? 0x2028) || (c =? 0x2029) || (c =? 0x202F) || (c =? 0x205F)
  || (c =? 0x3000).

(** [s.startswith(p)]. *)
Fixpoint startswith (s p : str) : bool :=
  match p, s with
  | [], _ => true
  | _ :: _, [] => false
  | x :: p', y :: s' => (x =? y) && startswith s' p'
  end.

(** [sub in s]: substring test. *)
Fixpoint contains (sub s : str) : bool :=
  startswith s sub
  || match s with [] => false | _ :: s' => contains sub s' end.

(** [c in s] for a single character [c]. *)
Definition mem (c : char) (s : str) : bool := existsb (N.eqb c) s.

(** [s.replace(old, new)]: the non-overlapping occurrences of [old], found
    from the left, are replaced.  [skip] counts the characters of a matched
    occurrence that are still to be passed over. *)
Fixpoint replace_go (old new : str) (skip : nat) (s : str) : str :=
  match s with
  | [] => []
  | c :: s' =>
      match skip with
      | S k => replace_go old new k s'
      | O =>
          if startswith s old
          then new ++ replace_go old new (pred (List.length old)) s'
          else c :: replace_go old new 0 s'
      end
  end.

Definition replace (old new s : str) : str :=
  match old with
  | [] => new ++ flat_map (fun c => c :: new) s
  | _ :: _ => replace_go old new 0 s
  end.

(** [s.split(sep)] for a one-character separator: empty pieces are kept. *)
Fixpoint split_go (sep : char) (cur : str) (s : str) : list str :=
  match s with
  | [] => [cur]
  | c :: s' =>
      if c =? sep then cur :: split_go sep [] s'
      else split_go sep (cur ++ [c]) s'
  end.

Definition split (sep : char) (s : str) : list str := split_go sep [] s.

(** [s.split()]: split on runs of white space, no empty pieces. *)
Fixpoint split_ws_go (cur : str) (s : str) : list str :=
  match s with
  | [] => match cur with [] => [] | _ :: _ => [cur] end
  | c :: s' =>
      if isspace c
      then match cur with
           | [] => split_ws_go [] s'
           | _ :: _ => cur :: split_ws_go [] s'
           end
      else split_ws_go (cur ++ [c]) s'
  end.

Definition split_ws (s : str) : list str := split_ws_go [] s.

(** [sep.join(parts)]. *)
Fixpoint join (sep : str) (parts : list str) : str :=
  match parts with
  | [] => []
  | [p] => p
  | p :: rest => p ++ sep ++ join sep rest
  end.

(** [s.strip()]. *)
Fixpoint lstrip (s : str) : str :=
  match s with
  | [] => []
  | c :: s' => if isspace c then lstrip s' else s
  end.

Definition rstrip (s : str) : str := rev (lstrip (rev s)).
Definition strip (s : str) : str := rstrip (lstrip s).

(** [s.find(c)] and [s.rfind(c)] for a single character, [-1] when absent. *)
Fixpoint find (c : char) (s : str) : Z :=
  match s with
  | [] => (-1)%Z
  | x :: s' =>
      if x =? c then 0%Z
      else let r := find c s' in if (r =? -1)%Z then (-1)%Z else (r + 1)%Z
  end.

Definition rfind (c : char) (s : str) : Z :=
  let r := find c (rev s) in
  if (r =? -1)%Z then (-1)%Z else (Z.of_nat (List.length s) - 1 - r)%Z.

(** [s[i:j]] for [0 <= i] and [0 <= j]. *)
Definition slice (s : str) (i j : Z) : str :=
  firstn (Z.to_nat (j - i)) (skipn (Z.to_nat i) s).

(** [s.lower()] on ASCII letters; every other code point is left alone.
    Python's [str.lower] coincides with it on strings of ASCII characters. *)
Definition ascii_lower (s : str) : str :=
  map (fun c => if (65 <=? c) && (c <=? 90) then c + 32 else c) s.

Definition is_ascii (s : str) : Prop := Forall (fun c => c < 128) s.

(** A dict literal [{k1: v1, k2: v2, ...}]: a key written twice keeps the
    position of its first occurrence and the value of its last. *)
Fixpoint dict_set {V : Type} (k : str) (v : V) (d : list (str * V))
  : list (str * V) :=
  match d with
  | [] => [(k, v)]
  | (k', v') :: d' =>
      if eqb k k' then (k', v) :: d' else (k', v') :: dict_set k v d'
  end.

Definition dict_literal {V : Type} (items : list (str * V)) : list (str * V) :=
  fold_left (fun d kv => dict_set (fst kv) (snd kv) d) items [].

End PyStr.

Import PyStr.

(* ================================================================== *)
(** * Text sanitization: [clean_text_for_pdf] *)
(* ================================================================== *)

Module Sanitizer.

Local Open Scope N_scope.

(** The key at lines 42-43 of [processor.py].  Both lines start with three
    apostrophes, so Python reads them as one triple-quoted string: the key is
    the text between the two triple quotes (colon, space, quote, apostrophe,
    quote, comma, line feed and eight spaces) and its value, after the second
    triple quote, is an apostrophe. *)
Definition triple_quoted_key : str :=
  [58; 32; 34; 39; 34; 44; 10] ++ repeat 32 8.

(** The [replacements] dict, entry by entry as the literal lists them. *)
Definition replacements : list (str * str) :=
  dict_literal
    [ ([0x2122], py "(TM)");
      ([0xAE], py "(R)");
      ([0xA9], py "(C)");
      ([0x2013], py "-");
      ([34], [34]);
      ([34], [34]);
      (triple_quoted_key, py "'");
      ([0x2026], py "...");
      ([0x2122], py "(TM)");
      ([0xAE], py "(R)");
      ([0xA9], py "(C)");
      ([0x2013], py "-");
      ([0x2014], py "--");
      ([0x2018], py "'");
      ([0x2019], py "'");
      ([0x201C], [34]);
      ([0x201D], [34]) ].

(** [for char, replacement in replacements.items(): text = text.replace(..)] *)
Definition replace_known (table : list (str * str)) (text : str) : str :=
  fold_left (fun t kv => replace (fst kv) (snd kv) t) table text.

(** [char if ord(char) < 128 else ' '] *)
Definition ascii_or_space (c : char) : char := if c <? 128 then c else 32.

Definition clean_text_for_pdf (text : str) : str :=
  let text := replace_known replacements text in
  let cleaned_text := map ascii_or_space text in
  join [32] (split_ws cleaned_text).

End Sanitizer.

Import Sanitizer.

(* ================================================================== *)
(** * The table parser: [parse_product_blocks] *)
(* ================================================================== *)

Module Parser.

Local Open Scope N_scope.

(** One specification: the Python list [[spec_type, spec_value]] or
    [[cells[0], cells[1]]]. *)
Definition spec := list str.

(** The dict appended to [products]. *)
Record RawProductBlock := {
  name : str;
  price : option str;
  specifications : list spec
}.

(** The local variables of the parse loop. *)
Record state := {
  products : list RawProductBlock;
  current_product : option str;
  current_specs : list spec;
  current_price : option str
}.

Definition initial_state : state :=
  {| products := []; current_product := None;
     current_specs := []; current_price := None |}.

(** Truth value of a variable that holds [None] or a string. *)
Definition truthy (o : option str) : bool :=
  match o with Some s => nonempty s | None => false end.

(** The [spec_labels] dict, in the order of its literal. *)
Definition spec_labels : list (str * list str) :=
  dict_literal
    [ (py "Processor",
       [py "processor"; py "intel"; py "amd"; py "core"; py "celeron";
        py "xeon"]);
      (py "Memory",
       [py "memory"; py "gb:"; py "ram"; py "rdimm"; py "ddr"]);
      (py "Storage",
       [py "storage"; py "ssd"; py "hdd"; py "emmc"; py "hard drive";
        py "nvme"]);
      (py "Display",
       [py "display"; py "screen"; py "lcd"; [34]; py "fhd"; py "hd";
        py "monitor"]);
      (py "Graphics",
       [py "graphics"; py "gpu"; py "radeon"; py "nvidia";
        py "intel" ++ [0xAE] ++ py " uhd"]);
      (py "Power",
       [py "adapter"; py "battery"; py "cell"; py "wh"; py "expresscharge"]);
      (py "Wireless",
       [py "wireless"; py "wi-fi"; py "bluetooth"; py "ax201"; py "ax211"]);
      (py "Operating System", [py "windows"; py "chrome"]);
      (py "Warranty", [py "warranty"; py "service"; py "support"]) ].

(** [any(keyword in value_lower for keyword in keywords)] *)
Definition any_keyword (keywords : list str) (value_lower : str) : bool :=
  existsb (fun keyword => contains keyword value_lower) keywords.

(** The [for label, keywords in spec_labels.items()] loop with its
    [return label], and the [return 'Other'] after it. *)
Fixpoint first_match (table : list (str * list str)) (value_lower : str)
  : str :=
  match table with
  | [] => py "Other"
  | (label, keywords) :: rest =>
      if any_keyword keywords value_lower then label
      else first_match rest value_lower
  end.

(** [line.split('|')], each cell stripped, empty cells dropped. *)
Definition cells_of (line : str) : list str :=
  List.filter nonempty (map strip (split 124 line)).

(** [if '|' not in line or all(c in '|-' for c in line): continue] *)
Definition skipped (line : str) : bool :=
  negb (contains (py "|") line)
  || forallb (fun c => mem c (py "|-")) line.

(** [cells[0] != 'NaN' and ('Base Configuration' in line or
    'Base configuration' in line)] *)
Definition product_start (cells : list str) (line : str) : bool :=
  match cells with
  | [] => false
  | c0 :: _ =>
      negb (eqb c0 (py "NaN"))
      && (contains (py "Base Configuration") line
          || contains (py "Base configuration") line)
  end.

(** The price check of one row: the first cell that starts with a dollar
    sign, without its dollar signs and commas, becomes the running price. *)
Definition update_price (cells : list str) (cur : option str) : option str :=
  let price_cell := List.find (fun cell => startswith cell (py "$")) cells in
  if truthy price_cell
  then match price_cell with
       | Some cell => Some (replace (py ",") [] (replace (py "$") [] cell))
       | None => cur
       end
  else cur.

(** [if current_product and current_specs: products.append({...})] *)
Definition emit (st : state) (price_now : option str)
  : list RawProductBlock :=
  match current_product st, current_specs st with
  | Some p, _ :: _ =>
      if nonempty p
      then products st ++
           [{| name := p; price := price_now;
               specifications := current_specs st |}]
      else products st
  | _, _ => products st
  end.

Section WithLower.

(** Python's [str.lower] (the Unicode case mapping of the interpreter). *)
Variable lower : str -> str.

Definition determine_spec_type (value : str) : str :=
  let value_lower := lower value in
  first_match spec_labels value_lower.

(** One iteration of [for line in lines]. *)
Definition step (st : state) (line : str) : state :=
  if skipped line then st
  else
    let cells := cells_of line in
    match cells with
    | [] => st
    | c0 :: more =>
        let price_now := update_price cells (current_price st) in
        if product_start cells line
        then {| products := emit st price_now;
                current_product := Some c0;
                current_specs := [];
                current_price := price_now |}
        else if truthy (current_product st)
        then match more with
             | c1 :: _ =>
                 let new_spec :=
                   if eqb c0 (py "NaN")
                   then [determine_spec_type c1; c1]
                   else [c0; c1] in
                 {| products := products st;
                    current_product := current_product st;
                    current_specs := current_specs st ++ [new_spec];
                    current_price := price_now |}
             | [] =>
                 {| products := products st;
                    current_product := current_product st;
                    current_specs := current_specs st;
                    current_price := price_now |}
             end
        else {| products := products st;
                current_product := current_product st;
                current_specs := current_specs st;
                current_price := price_now |}
    end.

Definition loop (st : state) (lines : list str) : state :=
  fold_left step lines st.

(** [[line.strip() for line in content.split('\n') if line.strip()]] *)
Definition lines_of (content : str) : list str :=
  map strip (List.filter (fun line => nonempty (strip line)) (split 10 content)).

Definition parse_product_blocks (content : str) : list RawProductBlock :=
  let st := loop initial_state (lines_of content) in
  emit st (current_price st).

End WithLower.

End Parser.

Import Parser.

(* ================================================================== *)
(** * Python values and exceptions *)
(* ================================================================== *)

Module Py.

(** The values that [json.loads] and the service client can hand back. *)
#[warnings="-register-all"]
Inductive pyval :=
| PNone
| PBool (b : bool)
| PInt (z : Z)
| PFloat (repr : str)
| PStr (s : str)
| PList (l : list pyval)
| PDict (d : list (str * pyval)).

Inductive exn :=
| KeyError
| IndexError
| TypeError
| AttributeError
| ValueError
| ZeroDivisionError
| OSError
| ServiceError (description : str).

(** A computation that returns or raises. *)
Inductive result (A : Type) :=
| Ok (a : A)
| Raise (e : exn).

Arguments Ok {A} a.
Arguments Raise {A} e.

Definition bind {A B : Type} (m : result A) (k : A -> result B) : result B :=
  match m with
  | Ok a => k a
  | Raise e => Raise e
  end.

Fixpoint dict_get {V : Type} (k : str) (d : list (str * V)) : option V :=
  match d with
  | [] => None
  | (k', v) :: d' => if eqb k k' then Some v else dict_get k d'
  end.

(** [v[key]] for a string key. *)
Definition getitem (v : pyval) (key : str) : result pyval :=
  match v with
  | PDict d =>
      match dict_get key d with Some x => Ok x | None => Raise KeyError end
  | _ => Raise TypeError
  end.

(** [v[i]] for a non-negative integer index. *)
Definition getindex (v : pyval) (i : nat) : result pyval :=
  match v with
  | PList l =>
      match nth_error l i with Some x => Ok x | None => Raise IndexError end
  | PStr s =>
      match nth_error s i with
      | Some c => Ok (PStr [c])
      | None => Raise IndexError
      end
  | PDict _ => Raise KeyError
  | _ => Raise TypeError
  end.

End Py.

Import Py.

Declare Scope result_scope.
Delimit Scope result_scope with result.
Notation "x <- m ;; k" := (bind m (fun x => k))
  (at level 61, m at next level, right associativity) : result_scope.

(* ================================================================== *)
(** * The normalizer call and its fallback: [process_with_gpt] *)
(* ================================================================== *)

Module Normalizer.

Local Open Scope N_scope.
Local Open Scope result_scope.

(** [len(spec) >= 2] *)
Definition is_pair (s : spec) : bool := (2 <=? List.length s)%nat.

(** [spec[0]] and [spec[1]] of a specification that passed [is_pair]. *)
Definition spec0 (s : spec) : str := nth 0 s [].
Definition spec1 (s : spec) : str := nth 1 s [].

(** The text sent to the service, one line per specification. *)
Definition specs_text (product_data : RawProductBlock) : str :=
  join [10]
    (map (fun s => spec0 s ++ py ": " ++ spec1 s)
       (List.filter is_pair (specifications product_data))).

Definition price_value (p : option str) : pyval :=
  match p with Some x => PStr x | None => PNone end.

(** The dict of the [except] branch. *)
Definition fallback (product_data : RawProductBlock) : pyval :=
  PDict
    [ (py "title", PStr (name product_data));
      (py "price", price_value (price product_data));
      (py "main_specs",
       PList
         (map (fun s => PDict [ (py "label", PStr (spec0 s));
                                (py "value", PStr (spec1 s)) ])
            (List.filter is_pair (specifications product_data))));
      (py "upgrade_options", PList []) ].

Section WithService.

(** The prompt template of lines 79-110, filled with the product name, its
    price and [specs_text]; its wording takes no part in the control flow. *)
Variable prompt_of : str -> option str -> str -> str.

(** [openai.ChatCompletion.create] with the prompt as the only message. *)
Variable ChatCompletion_create : str -> result pyval.

(** [json.loads] *)
Variable json_loads : str -> result pyval.

(** The body of the [try] block. *)
Definition call_normalizer (product_data : RawProductBlock) : result pyval :=
  let prompt :=
    prompt_of (name product_data) (price product_data)
      (specs_text product_data) in
  response <- ChatCompletion_create prompt ;;
  choices <- getitem response (py "choices") ;;
  choice <- getindex choices 0 ;;
  message <- getitem choice (py "message") ;;
  content <- getitem message (py "content") ;;
  match content with
  | PStr content =>
      let start_idx := find 123 content in
      let end_idx := (rfind 125%N content + 1)%Z in
      if negb (start_idx =? -1)%Z && negb (end_idx =? -1)%Z
      then json_loads (slice content start_idx end_idx)
      else Raise ValueError
  | _ => Raise AttributeError
  end.

(** [try: ... except Exception: return {...}] *)
Definition process_with_gpt (product_data : RawProductBlock) : pyval :=
  match call_normalizer product_data with
  | Ok structured_data => structured_data
  | Raise _ => fallback product_data
  end.

End WithService.

End Normalizer.

Import Normalizer.

(* ================================================================== *)
(** * Row heights of [create_specification_table] *)
(* ================================================================== *)

Module Layout.

Local Open Scope Z_scope.
Local Open Scope result_scope.

(** What is drawn for one entry. *)
Record LayoutRow := {
  label_text : str;
  value_text : str;
  height : Z;
  fill_is_dark : bool
}.

(** [int(x)] of a float: truncation towards zero. *)
Definition int (x : Q) : Z := Z.quot (Qnum x) (Zpos (Qden x)).

Definition row_height : Z := 8.

(** [len(value.split('\n'))] *)
Definition value_lines (value : str) : Z :=
  Z.of_nat (List.length (split 10%N value)).

Section WithCanvas.

(** The page width [self.w] of the FPDF canvas. *)
Variable w : Q.

(** [self.get_string_width] in the current font. *)
Variable get_string_width : str -> Q.

(** The rounding of one float operation to a representable number; the
    identity gives exact arithmetic. *)
Variable fl : Q -> Q.

Definition content_width : Q := fl (w - 40).
Definition label_width : Q := fl (content_width * fl (3 # 10)).
Definition value_width : Q := fl (content_width * fl (7 # 10)).

(** [text_width / value_width] *)
Definition width_ratio (value_text : str) : result Q :=
  if Qeq_bool value_width 0 then Raise ZeroDivisionError
  else Ok (fl (get_string_width value_text / value_width)).

(** [max(1, int(text_width / value_width) + 1)] *)
Definition wrapped_lines (value_text : str) : result Z :=
  ratio <- width_ratio value_text ;;
  Ok (Z.max 1 (int ratio + 1)).

Definition total_lines (value : str) : result Z :=
  wrapped <- wrapped_lines value ;;
  Ok (Z.max (value_lines value) wrapped).

Definition current_row_height (value : str) : result Z :=
  total <- total_lines value ;;
  Ok (row_height * total).

End WithCanvas.

End Layout.

Import Layout.

(* ================================================================== *)
(** * The whole table: [create_specification_table] on a Python value *)
(* ================================================================== *)

Module Render.

Local Open Scope Z_scope.
Local Open Scope result_scope.

(** What one call of [create_specification_table] draws: the title, the
    price line when there is one, the main rows, and the rows of the
    upgrade section when there is one. *)
Record Table := {
  title_text : str;
  price_text : option str;
  main_rows : list LayoutRow;
  upgrade_rows : option (list LayoutRow)
}.

(** [v.get(key)]: only a dict has the method. *)
Definition get (v : pyval) (key : str) : result pyval :=
  match v with
  | PDict d =>
      Ok (match dict_get key d with Some x => x | None => PNone end)
  | _ => Raise AttributeError
  end.

(** [for x in v]: the elements of a list, the keys of a dict, the characters
    of a string. *)
Definition iterate (v : pyval) : result (list pyval) :=
  match v with
  | PList l => Ok l
  | PDict d => Ok (map (fun kv => PStr (fst kv)) d)
  | PStr s => Ok (map (fun c => PStr [c]) s)
  | _ => Raise TypeError
  end.

(** [clean_text_for_pdf(v)]: a value that is no string has no [replace]. *)
Definition clean_value (v : pyval) : result str :=
  match v with
  | PStr s => Ok (clean_text_for_pdf s)
  | _ => Raise AttributeError
  end.

(** [v in ['None', '', None]] *)
Definition is_sentinel (v : pyval) : bool :=
  match v with
  | PNone => true
  | PStr s => eqb s (py "None") || eqb s []
  | _ => false
  end.

Section WithCanvas.

Variable w : Q.
Variable get_string_width : str -> Q.
Variable fl : Q -> Q.

(** [str(v)] of a value that is no string, and the truth value of a float
    given by its literal. *)
Variable str_of : pyval -> str.
Variable float_truth : str -> bool.

(** [bool(v)] *)
Definition truth (v : pyval) : bool :=
  match v with
  | PNone => false
  | PBool b => b
  | PInt z => negb (z =? 0)
  | PFloat r => float_truth r
  | PStr s => nonempty s
  | PList l => match l with [] => false | _ :: _ => true end
  | PDict d => match d with [] => false | _ :: _ => true end
  end.

(** [str(v)] *)
Definition py_str (v : pyval) : str :=
  match v with
  | PStr s => s
  | _ => str_of v
  end.

(** The loop over [structured_data['main_specs']]. *)
Fixpoint main_rows_of (is_dark_row : bool) (specs : list pyval)
  : result (list LayoutRow) :=
  match specs with
  | [] => Ok []
  | spec :: rest =>
      v <- get spec (py "value") ;;
      if negb (truth v) then main_rows_of is_dark_row rest
      else
        h <- current_row_height w get_string_width fl (py_str v) ;;
        l <- getitem spec (py "label") ;;
        rows <- main_rows_of (negb is_dark_row) rest ;;
        Ok ({| label_text := clean_text_for_pdf (py_str l);
               value_text := clean_text_for_pdf (py_str v);
               height := h;
               fill_is_dark := is_dark_row |} :: rows)
  end.

(** The loop over [structured_data['upgrade_options']]. *)
Fixpoint upgrade_rows_of (is_dark_row : bool) (upgrades : list pyval)
  : result (list LayoutRow) :=
  match upgrades with
  | [] => Ok []
  | upgrade :: rest =>
      v <- getitem upgrade (py "value") ;;
      p <- get upgrade (py "price") ;;
      let upgrade_text :=
        if truth p then py_str v ++ py " - $" ++ py_str p else py_str v in
      let lines := value_lines upgrade_text in
      let current_row_height := Z.max row_height (row_height * lines) in
      l <- getitem upgrade (py "label") ;;
      rows <- upgrade_rows_of (negb is_dark_row) rest ;;
      Ok ({| label_text := clean_text_for_pdf (py_str l);
             value_text := clean_text_for_pdf upgrade_text;
             height := current_row_height;
             fill_is_dark := is_dark_row |} :: rows)
  end.

(** The title and the price line [$ + price], when one is drawn. *)
Definition heading (structured_data : pyval) : result (str * option str) :=
  title <- getitem structured_data (py "title") ;;
  title <- clean_value title ;;
  price <- get structured_data (py "price") ;;
  Ok (title,
      if truth price && negb (is_sentinel price)
      then Some (py "$" ++ clean_text_for_pdf (py_str price))
      else None).

(** [SpecificationPDF.create_specification_table] *)
Definition create_specification_table (structured_data : pyval)
  : result Table :=
  head <- heading structured_data ;;
  specs <- getitem structured_data (py "main_specs") ;;
  specs <- iterate specs ;;
  rows <- main_rows_of true specs ;;
  upgrades <- get structured_data (py "upgrade_options") ;;
  if truth upgrades
  then
    upgrades <- iterate upgrades ;;
    urows <- upgrade_rows_of true upgrades ;;
    Ok {| title_text := fst head; price_text := snd head;
          main_rows := rows; upgrade_rows := Some urows |}
  else
    Ok {| title_text := fst head; price_text := snd head;
          main_rows := rows; upgrade_rows := None |}.

End WithCanvas.

End Render.

Import Render.

(* ================================================================== *)
(** * One document per product: [create_spec_pdf] and [main] *)
(* ================================================================== *)

Module Batch.

Local Open Scope N_scope.

(** [s.strip(chars)] *)
Fixpoint lstrip_of (chars s : str) : str :=
  match s with
  | [] => []
  | c :: s' => if mem c chars then lstrip_of chars s' else s
  end.

Definition strip_of (chars s : str) : str :=
  rev (lstrip_of chars (rev (lstrip_of chars s))).

(** The path typed in the template workflow: the input line stripped of
    white space, then of double quotes (34), then of apostrophes (39). *)
Definition typed_path (line : str) : str :=
  strip_of [39] (strip_of [34] (strip line)).

Section WithEnvironment.

Variable lower : str -> str.
Variable prompt_of : str -> option str -> str -> str.
Variable ChatCompletion_create : str -> result pyval.
Variable json_loads : str -> result pyval.
Variable w : Q.
Variable get_string_width : str -> Q.
Variable fl : Q -> Q.
Variable str_of : pyval -> str.
Variable float_truth : str -> bool.

(** [x.isalnum()] (the Unicode classes of the interpreter). *)
Variable isalnum : char -> bool.

(** [create_spec_pdf]: an exception of the table is raised again. *)
Definition create_spec_pdf (product : RawProductBlock) : result Table :=
  let structured_data :=
    process_with_gpt prompt_of ChatCompletion_create json_loads product in
  create_specification_table w get_string_width fl str_of float_truth
    structured_data.

(** [x.isalnum() or x in (' ', '-', '_')] kept, the rest dropped. *)
Definition safe_filename (product_name : str) : str :=
  List.filter (fun x => isalnum x || mem x (py " -_")) product_name.

Definition output_file (product_name : str) : str :=
  safe_filename product_name ++ py "_spec.pdf".

(** [pdf.output(str(output_file))]: writing the file may raise. *)
Variable output : str -> Table -> result unit.

(** The [for] loop of [main]: the documents written, in order, and the
    exception that ended the loop, if any. *)
Fixpoint generate (products : list RawProductBlock)
  : list (str * Table) * option exn :=
  match products with
  | [] => ([], None)
  | product :: rest =>
      match create_spec_pdf product with
      | Raise e => ([], Some e)
      | Ok pdf =>
          match output (output_file (name product)) pdf with
          | Raise e => ([], Some e)
          | Ok _ =>
              let (written, failure) := generate rest in
              ((output_file (name product), pdf) :: written, failure)
          end
      end
  end.

(** [output_dir.mkdir(exist_ok=True)]: making the directory may raise. *)
Variable mkdir : result unit.


End WithEnvironment.

End Batch.

Import Batch.

(* ================================================================== *)
(** * Vocabulary of the statements *)
(* ================================================================== *)

Section Vocabulary.

Local Open Scope N_scope.

(** A word: a non-empty string without white space. *)
Definition word (t : str) : Prop :=
  t <> [] /\ Forall (fun c => isspace c = false) t.

(** The shape of a sanitized string: ASCII words joined by single spaces. *)
Definition normalized (s : str) : Prop :=
  exists words,
    s = join [32] words /\ Forall word words /\ Forall is_ascii words.

(** An entry of the table cannot touch a text made of ASCII characters other
    than the line feed when its key equals its value or holds a character of
    neither kind. *)
Definition harmless (kv : str * str) : bool :=
  eqb (fst kv) (snd kv)
  || existsb (fun c => (128 <=? c) || (c =? 10)) (fst kv).

(** A character is out of the reach of a table when it is an ASCII
    character other than the line feed or occurs in no key. *)
Definition untouched (table : list (str * str)) (c : char) : Prop :=
  (c < 128 /\ c <> 10) \/ (forall kv, In kv table -> ~ In c (fst kv)).

(** The keyword list of a category of [spec_labels]. *)
Definition keywords (category : str) : list str :=
  match dict_get category spec_labels with
  | Some kws => kws
  | None => []
  end.

(** A row that opens a product: it is not skipped and passes the
    [product_start] test. *)
Definition is_marker (line : str) : bool :=
  negb (skipped line) && product_start (cells_of line) line.

(** A row that can add no specification: it is skipped or has fewer than two
    cells, and it opens no product. *)
Definition no_spec_row (line : str) : bool :=
  negb (is_marker line)
  && (skipped line || (List.length (cells_of line) <? 2)%nat).

(** An emitted block is complete: it has a name and a specification. *)
Definition complete (p : RawProductBlock) : Prop :=
  name p <> [] /\ specifications p <> [].

Definition pairs_only (specs : list spec) : Prop :=
  Forall (fun s => List.length s = 2%nat) specs.

(** What the loop maintains. *)
Definition parser_inv (st : state) : Prop :=
  Forall (fun p => complete p /\ pairs_only (specifications p)) (products st)
  /\ pairs_only (current_specs st).

(** What is known of [str.lower]: on ASCII text it lowers the letters A-Z
    and keeps the rest. *)
Definition lowers_ascii (lower : str -> str) : Prop :=
  forall s, is_ascii s -> lower s = ascii_lower s.

(** Scenario A of the specification. *)
Definition scenario_A : str :=
  py "| Model X Base Configuration | |" ++ [10%N]
  ++ py "| NaN | Intel Core i7 processor |" ++ [10%N]
  ++ py "| NaN | $999 |".

End Vocabulary.

(* ================================================================== *)
(** * Further vocabulary *)
(* ================================================================== *)

Section MoreVocabulary.

Local Open Scope N_scope.

(** The two keywords of [spec_labels] that contain an earlier keyword:
    'fhd' contains 'hd' of the same list, and the Graphics keyword that
    starts with 'intel' contains the Processor keyword 'intel'. *)
Definition shadowed_keyword (k : str) : bool :=
  eqb k (py "fhd") || eqb k (py "intel" ++ [0xAE] ++ py " uhd").

(** The table without them. *)
Definition pruned_labels : list (str * list str) :=
  map (fun e => (fst e, List.filter (fun k => negb (shadowed_keyword k)) (snd e)))
    spec_labels.

(** A cell as the parser stores it: not empty, stripped, and free of pipes
    and line feeds. *)
Definition tidy (c : str) : Prop :=
  c <> [] /\ strip c = c /\ ~ In 124 c /\ ~ In 10 c.

(** The price that a dollar cell stands for: the cell without its dollar
    signs and commas. *)
Definition price_of_cell (cell : str) : str :=
  List.filter (fun x => negb (x =? 36) && negb (x =? 44)) cell.

(** The first dollar cell of a row that the loop does not skip. *)
Definition dollar_cell (line : str) : option str :=
  if skipped line then None
  else List.find (fun c => startswith c (py "$")) (cells_of line).

(** A row that the loop reads as a specification when a product is open. *)
Definition spec_row (line : str) : bool :=
  negb (skipped line) && negb (is_marker line)
  && (2 <=? List.length (cells_of line))%nat.

(** A value that the fallback passes on and the table draws: a pair with a
    non-empty second element. *)
Definition drawable (s : spec) : Prop :=
  List.length s = 2%nat /\ nth 1 s [] <> [].




(** The values that the main loop draws: [str(spec['value'])] of the entries
    whose value is true. *)
Definition drawn_values (str_of : pyval -> str) (float_truth : str -> bool)
  (entries : list pyval) : list str :=
  flat_map
    (fun e =>
       match get e (py "value") with
       | Ok v => if truth float_truth v then [py_str str_of v] else []
       | Raise _ => []
       end)
    entries.

(** The text of an upgrade row: the value, followed by the price after
    [" - $"] when the price is true. *)
Definition upgrade_text_of (str_of : pyval -> str) (float_truth : str -> bool)
  (upgrade : pyval) : str :=
  match getitem upgrade (py "value"), get upgrade (py "price") with
  | Ok v, Ok p =>
      if truth float_truth p
      then py_str str_of v ++ py " - $" ++ py_str str_of p
      else py_str str_of v
  | _, _ => []
  end.

(** The executable form of [tidy]. *)
Definition tidyb (c : str) : bool :=
  nonempty c && eqb (strip c) c && negb (mem 124 c) && negb (mem 10 c).

(** A state all of whose names satisfy [N], specifications [S] and prices
    [R], in the emitted blocks and in the open one. *)
Definition blocks_inv (N : str -> Prop) (S : spec -> Prop)
  (R : option str -> Prop) (st : state) : Prop :=
  Forall (fun p => N (name p) /\ Forall S (specifications p) /\ R (price p))
    (products st)
  /\ (forall p, current_product st = Some p -> N p)
  /\ Forall S (current_specs st)
  /\ R (current_price st).

(** The text of the reply: [response['choices'][0]['message']['content']]. *)
Definition reply_text (response : pyval) : result pyval :=
  bind (getitem response (py "choices")) (fun choices =>
  bind (getindex choices 0) (fun choice =>
  bind (getitem choice (py "message")) (fun message =>
  getitem message (py "content")))).

(** The entry that the fallback makes of a specification. *)
Definition fallback_entry (s : spec) : pyval :=
  PDict [ (py "label", PStr (nth 0 s [])); (py "value", PStr (nth 1 s [])) ].

(** An entry of [main_specs] that the table passes over: a dict whose value
    is missing or false. *)
Definition passed_over (float_truth : str -> bool) (e : pyval) : bool :=
  match get e (py "value") with
  | Ok v => negb (truth float_truth v)
  | Raise _ => false
  end.

(** An open block counts for one. *)
Definition open_count (st : state) : nat :=
  match current_product st with Some _ => 1%nat | None => 0%nat end.

(** The shades of [n] rows that start with [dark] and alternate. *)
Fixpoint alternating (dark : bool) (n : nat) : list bool :=
  match n with
  | O => []
  | S n' => dark :: alternating (negb dark) n'
  end.

End MoreVocabulary.

(* ================================================================== *)
(** * Facts about the string operations *)
(* ================================================================== *)

Section StringFacts.

Local Open Scope N_scope.

Lemma eqb_eq (a b : str) : eqb a b = true <-> a = b.
Proof.
  revert b; induction a as [|x a IH]; intros [|y b]; simpl;
    try (split; [discriminate | intro H; inversion H]); [tauto|].
  rewrite andb_true_iff, N.eqb_eq, IH.
  split; [intros [-> ->]; reflexivity | intro H; inversion H; auto].
Qed.

Lemma eqb_refl (a : str) : eqb a a = true.
Proof. apply eqb_eq; reflexivity. Qed.

Lemma startswith_split (s p : str) :
  startswith s p = true -> s = p ++ skipn (List.length p) s.
Proof.
  revert s; induction p as [|x p IH]; intros s H; [reflexivity|].
  destruct s as [|y s]; simpl in H; [discriminate|].
  apply andb_true_iff in H as [Hxy Hp].
  apply N.eqb_eq in Hxy; subst y.
  simpl; f_equal; apply IH, Hp.
Qed.

Lemma startswith_In (s p : str) (c : char) :
  startswith s p = true -> In c p -> In c s.
Proof.
  intros H Hc. rewrite (startswith_split _ _ H).
  apply in_or_app; left; exact Hc.
Qed.

Lemma replace_go_cons (old new s : str) (x : char) :
  replace_go old new 0 (x :: s) =
  if startswith (x :: s) old
  then new ++ replace_go old new (pred (List.length old)) s
  else x :: replace_go old new 0 s.
Proof. reflexivity. Qed.

(** A key one of whose characters is missing from the text is never found. *)
Lemma replace_go_absent (old new s : str) (c : char) :
  In c old -> ~ In c s -> replace_go old new 0 s = s.
Proof.
  intros Hold. induction s as [|x s IH]; intros Hs; [reflexivity|].
  rewrite replace_go_cons.
  destruct (startswith (x :: s) old) eqn:E.
  - exfalso; apply Hs; eapply startswith_In; eauto.
  - f_equal; apply IH; intro Hin; apply Hs; right; exact Hin.
Qed.

Lemma replace_absent (old new s : str) (c : char) :
  In c old -> ~ In c s -> replace old new s = s.
Proof.
  intros Hold Hs. destruct old as [|o old]; [destruct Hold|].
  unfold replace. eapply replace_go_absent; eauto.
Qed.

(** Replacing a key by itself changes nothing. *)
Lemma replace_go_same (k s : str) (n : nat) :
  k <> [] -> replace_go k k n s = skipn n s.
Proof.
  intros Hk. revert n; induction s as [|x s IH]; intros n.
  - destruct n; reflexivity.
  - destruct n as [|n]; [|apply IH].
    rewrite replace_go_cons.
    destruct (startswith (x :: s) k) eqn:E.
    + rewrite IH. pose proof (startswith_split _ _ E) as Hs.
      destruct k as [|y k]; [contradiction|].
      simpl in Hs. inversion Hs as [[Hy Hrest]]. subst y.
      simpl pred. simpl skipn at 2.
      rewrite Hrest at 2. reflexivity.
    + rewrite IH. reflexivity.
Qed.

Lemma replace_same (k s : str) : replace k k s = s.
Proof.
  destruct k as [|y k].
  - simpl. induction s as [|x s IH]; simpl; congruence.
  - unfold replace. rewrite replace_go_same by discriminate. reflexivity.
Qed.

(** ** White-space splitting and joining *)

Lemma split_ws_go_app (t cur s : str) :
  Forall (fun c => isspace c = false) t ->
  split_ws_go cur (t ++ s) = split_ws_go (cur ++ t) s.
Proof.
  intros Ht; revert cur; induction Ht as [|c t Hc Ht IH]; intros cur.
  - rewrite app_nil_r; reflexivity.
  - simpl. rewrite Hc, IH, <- app_assoc. reflexivity.
Qed.

Lemma split_ws_go_space (cur s : str) (c : char) :
  cur <> [] -> isspace c = true ->
  split_ws_go cur (c :: s) = cur :: split_ws_go [] s.
Proof.
  intros Hne Hc. simpl. rewrite Hc. destruct cur; [contradiction | reflexivity].
Qed.

Lemma split_ws_join (toks : list str) :
  Forall word toks -> split_ws (join [32] toks) = toks.
Proof.
  unfold split_ws.
  induction 1 as [|t rest [Hne Ht] Hrest IH]; [reflexivity|].
  destruct rest as [|t2 rest].
  - pose proof (split_ws_go_app t [] [] Ht) as E.
    rewrite app_nil_r in E. simpl join. rewrite E. simpl.
    destruct t; [contradiction | reflexivity].
  - change (join [32] (t :: t2 :: rest))
      with (t ++ 32 :: join [32] (t2 :: rest)).
    rewrite split_ws_go_app by exact Ht. simpl app.
    rewrite split_ws_go_space by (exact Hne || reflexivity).
    rewrite IH. reflexivity.
Qed.

Lemma split_ws_go_words (s cur : str) :
  Forall (fun c => isspace c = false) cur ->
  Forall word (split_ws_go cur s).
Proof.
  revert cur; induction s as [|c s IH]; intros cur Hcur; simpl.
  - destruct cur; constructor; [split; [discriminate | exact Hcur] | constructor].
  - destruct (isspace c) eqn:E.
    + destruct cur as [|x cur]; [apply IH; constructor|].
      constructor; [split; [discriminate | exact Hcur] | apply IH; constructor].
    + apply IH. apply Forall_app; split; [exact Hcur | repeat constructor; exact E].
Qed.

Lemma split_ws_go_Forall (P : char -> Prop) (s cur : str) :
  Forall P cur -> Forall P s -> Forall (Forall P) (split_ws_go cur s).
Proof.
  revert cur; induction s as [|c s IH]; intros cur Hcur Hs; simpl.
  - destruct cur; [constructor | constructor; [exact Hcur | constructor]].
  - inversion Hs as [|? ? Hc Hs']; subst.
    destruct (isspace c).
    + destruct cur as [|x cur]; [apply IH; auto|].
      constructor; [exact Hcur | apply IH; auto].
    + apply IH; [|exact Hs'].
      apply Forall_app; split; [exact Hcur | repeat constructor; exact Hc].
Qed.

Lemma join_Forall (P : char -> Prop) (sep : str) (toks : list str) :
  Forall P sep -> Forall (Forall P) toks -> Forall P (join sep toks).
Proof.
  intros Hsep; induction 1 as [|t rest Ht Hrest IH]; [constructor|].
  destruct rest as [|t2 rest]; [exact Ht|].
  change (join sep (t :: t2 :: rest)) with (t ++ sep ++ join sep (t2 :: rest)).
  repeat (apply Forall_app; split); assumption.
Qed.

(** [len(s.split(sep))] is one more than the number of separators. *)
Lemma split_go_length (sep : char) (s cur : str) :
  List.length (split_go sep cur s) = S (count_occ N.eq_dec s sep).
Proof.
  revert cur; induction s as [|c s IH]; intros cur; simpl; [reflexivity|].
  destruct (N.eqb_spec c sep) as [->|Hne].
  - simpl. rewrite IH. destruct (N.eq_dec sep sep); [reflexivity | contradiction].
  - rewrite IH. destruct (N.eq_dec c sep); [contradiction | reflexivity].
Qed.

Lemma is_ascii_check (s : str) :
  forallb (fun c => (c <? 128)%N) s = true -> is_ascii s.
Proof.
  intros H. apply Forall_forall. intros c Hc.
  rewrite forallb_forall in H. apply N.ltb_lt, H, Hc.
Qed.

End StringFacts.

(* ================================================================== *)
(** * Properties of the text sanitization *)
(* ================================================================== *)

Section SanitizerFacts.

Local Open Scope N_scope.

Lemma replacements_harmless : forallb harmless replacements = true.
Proof. vm_compute. reflexivity. Qed.

Lemma replace_harmless (kv : str * str) (s : str) :
  harmless kv = true ->
  Forall (untouched [kv]) s ->
  replace (fst kv) (snd kv) s = s.
Proof.
  intros H Hs. apply orb_true_iff in H as [H|H].
  - apply eqb_eq in H. rewrite <- H. apply replace_same.
  - apply existsb_exists in H as (c & Hc & Hbad).
    apply (replace_absent _ _ _ _ Hc).
    intro Hin. rewrite Forall_forall in Hs.
    destruct (Hs _ Hin) as [[Hlt Hne]|Hout].
    + apply orb_true_iff in Hbad as [Hbad|Hbad].
      * apply N.leb_le in Hbad. lia.
      * apply N.eqb_eq in Hbad. contradiction.
    + apply (Hout kv); [left; reflexivity | exact Hc].
Qed.

Lemma replace_known_harmless (table : list (str * str)) (s : str) :
  forallb harmless table = true ->
  Forall (untouched table) s ->
  replace_known table s = s.
Proof.
  intros Ht Hs. unfold replace_known.
  induction table as [|kv table IH]; [reflexivity|].
  simpl in Ht. apply andb_true_iff in Ht as [Hkv Ht].
  simpl. rewrite (replace_harmless _ _ Hkv).
  - apply IH; [exact Ht|].
    eapply Forall_impl; [|exact Hs].
    intros c [H|H]; [left; exact H | right].
    intros kv' Hin; apply H; right; exact Hin.
  - eapply Forall_impl; [|exact Hs].
    intros c [H|H]; [left; exact H | right].
    intros kv' [<-|[]]; apply H; left; reflexivity.
Qed.

Lemma map_ascii_or_space_ascii (s : str) :
  is_ascii s -> map ascii_or_space s = s.
Proof.
  induction 1 as [|c s Hc Hs IH]; [reflexivity|].
  simpl. rewrite IH. unfold ascii_or_space.
  destruct (N.ltb_spec c 128); [reflexivity | lia].
Qed.

Lemma map_ascii_or_space_is_ascii (s : str) : is_ascii (map ascii_or_space s).
Proof.
  unfold is_ascii. rewrite Forall_map. apply Forall_forall. intros c _.
  unfold ascii_or_space. destruct (N.ltb_spec c 128); lia.
Qed.

Lemma join_words_normalized (t : str) :
  is_ascii t -> normalized (join [32] (split_ws t)).
Proof.
  intros Ht. exists (split_ws t). split; [reflexivity|]. split.
  - apply split_ws_go_words. constructor.
  - apply split_ws_go_Forall; [constructor | exact Ht].
Qed.

Lemma clean_text_for_pdf_normalized (text : str) :
  normalized (clean_text_for_pdf text).
Proof. apply join_words_normalized, map_ascii_or_space_is_ascii. Qed.

Lemma normalized_chars (s : str) :
  normalized s -> Forall (fun c => c < 128 /\ c <> 10) s.
Proof.
  intros (words & -> & Hw & Ha).
  apply join_Forall; [repeat constructor; lia|].
  apply Forall_forall. intros t Ht.
  rewrite Forall_forall in Hw, Ha.
  destruct (Hw _ Ht) as [_ Hsp]. specialize (Ha _ Ht).
  unfold is_ascii in Ha. rewrite Forall_forall in Hsp, Ha |- *.
  intros c Hc. split; [apply Ha, Hc|].
  intros ->. specialize (Hsp _ Hc). discriminate.
Qed.

(** A sanitized string is a fixed point of the sanitizer. *)
Lemma clean_text_for_pdf_fixes_normalized (s : str) :
  normalized s -> clean_text_for_pdf s = s.
Proof.
  intros Hn. pose proof (normalized_chars _ Hn) as Hc.
  unfold clean_text_for_pdf.
  rewrite (replace_known_harmless _ _ replacements_harmless)
    by (eapply Forall_impl; [|exact Hc]; intros c H; left; exact H).
  rewrite map_ascii_or_space_ascii.
  - destruct Hn as (words & -> & Hw & _). rewrite split_ws_join by exact Hw.
    reflexivity.
  - eapply Forall_impl; [|exact Hc]. intros c [H _]; exact H.
Qed.

(** A non-ASCII code point that the table does not know becomes the single
    space between the two words around it. *)
Lemma clean_text_for_pdf_unknown_code_point (a b : str) (c : char) :
  word a -> is_ascii a -> word b -> is_ascii b ->
  128 <= c ->
  (forall kv, In kv replacements -> ~ In c (fst kv)) ->
  clean_text_for_pdf (a ++ [c] ++ b) = a ++ [32] ++ b.
Proof.
  intros Ha Haa Hb Hba Hc Hkeys.
  assert (Hword : forall t, word t -> is_ascii t ->
                            Forall (untouched replacements) t).
  { intros t [_ Hsp] Hasc. unfold is_ascii in Hasc.
    rewrite Forall_forall in Hsp, Hasc |- *.
    intros x Hx. left. split; [apply Hasc, Hx|].
    intros ->. specialize (Hsp _ Hx). discriminate. }
  unfold clean_text_for_pdf.
  rewrite (replace_known_harmless _ _ replacements_harmless).
  - rewrite !map_app, (map_ascii_or_space_ascii a Haa),
      (map_ascii_or_space_ascii b Hba).
    simpl map. unfold ascii_or_space at 1.
    destruct (N.ltb_spec c 128); [lia|].
    change (a ++ [32] ++ b) with (join [32] [a; b]) at 1.
    rewrite split_ws_join by (constructor; [|constructor; [|constructor]]; assumption).
    reflexivity.
  - repeat (apply Forall_app; split); auto.
    constructor; [right; exact Hkeys | constructor].
Qed.

End SanitizerFacts.

(** C8. Sanitization is idempotent: cleaning an already cleaned string
    returns it unchanged, for every input string. *)
Theorem clean_text_for_pdf_idempotent (s : str) :
  clean_text_for_pdf (clean_text_for_pdf s) = clean_text_for_pdf s.
Proof.
  apply clean_text_for_pdf_fixes_normalized, clean_text_for_pdf_normalized.
Qed.

(* ================================================================== *)
(** * Properties of the spec classifier *)
(* ================================================================== *)

Section ClassifierFacts.

Local Open Scope N_scope.

Lemma spec_labels_entries :
  spec_labels =
  [ (py "Processor", keywords (py "Processor"));
    (py "Memory", keywords (py "Memory"));
    (py "Storage", keywords (py "Storage"));
    (py "Display", keywords (py "Display"));
    (py "Graphics", keywords (py "Graphics"));
    (py "Power", keywords (py "Power"));
    (py "Wireless", keywords (py "Wireless"));
    (py "Operating System", keywords (py "Operating System"));
    (py "Warranty", keywords (py "Warranty")) ].
Proof. reflexivity. Qed.

Lemma first_match_range (table : list (str * list str)) (v : str) :
  In (first_match table v) (map fst table ++ [py "Other"]).
Proof.
  induction table as [|[label kws] table IH]; simpl; [left; reflexivity|].
  destruct (any_keyword kws v); [left; reflexivity | right; exact IH].
Qed.

(** The loop returns the label of the earliest entry that has a keyword in
    the text, and ['Other'] when no entry has one. *)
Lemma first_match_earliest (table : list (str * list str)) (v : str) :
  (first_match table v = py "Other"
   /\ Forall (fun e => any_keyword (snd e) v = false) table)
  \/ (exists before label kws after,
        table = before ++ (label, kws) :: after
        /\ first_match table v = label
        /\ any_keyword kws v = true
        /\ Forall (fun e => any_keyword (snd e) v = false) before).
Proof.
  induction table as [|[label kws] table IH]; simpl.
  - left; split; [reflexivity | constructor].
  - destruct (any_keyword kws v) eqn:E.
    + right. exists [], label, kws, table. repeat split; auto.
    + destruct IH as [[H1 H2]|(before & l & k & after & H1 & H2 & H3 & H4)].
      * left; split; [exact H1 | constructor; [exact E | exact H2]].
      * right. exists ((label, kws) :: before), l, k, after.
        subst table. repeat split; auto.
Qed.

End ClassifierFacts.

(** C2. For every input string the classifier returns one of the nine
    categories of the keyword table or ['Other'], and the returned string is
    not empty. *)
Theorem determine_spec_type_range (lower : str -> str) (value : str) :
  In (determine_spec_type lower value)
     [ py "Processor"; py "Memory"; py "Storage"; py "Display";
       py "Graphics"; py "Power"; py "Wireless"; py "Operating System";
       py "Warranty"; py "Other" ]
  /\ determine_spec_type lower value <> [].
Proof.
  assert (H : In (determine_spec_type lower value)
                (map fst spec_labels ++ [py "Other"]))
    by apply first_match_range.
  split; [exact H|].
  intro E. rewrite E in H. vm_compute in H.
  repeat (destruct H as [H|H]; [discriminate|]). exact H.
Qed.

(** C3. When the lower-cased value holds a Memory keyword and a Warranty
    keyword, the classifier returns the label of the earliest entry of the
    table that has a keyword in the value: ['Processor'] when a Processor
    keyword occurs too, ['Memory'] otherwise, and never ['Warranty']. *)
Theorem determine_spec_type_first_match (lower : str -> str) (value : str) :
  any_keyword (keywords (py "Memory")) (lower value) = true ->
  any_keyword (keywords (py "Warranty")) (lower value) = true ->
  determine_spec_type lower value =
    (if any_keyword (keywords (py "Processor")) (lower value)
     then py "Processor" else py "Memory")
  /\ exists before label kws after,
       spec_labels = before ++ (label, kws) :: after
       /\ determine_spec_type lower value = label
       /\ any_keyword kws (lower value) = true
       /\ Forall (fun e => any_keyword (snd e) (lower value) = false) before.
Proof.
  intros Hmem Hwar. split.
  - unfold determine_spec_type. rewrite spec_labels_entries.
    cbn [first_match]. rewrite Hmem. reflexivity.
  - destruct (first_match_earliest spec_labels (lower value))
      as [[_ Hnone]|H]; [|exact H].
    exfalso. rewrite spec_labels_entries in Hnone.
    rewrite Forall_forall in Hnone.
    specialize (Hnone (py "Memory", keywords (py "Memory"))).
    cbn [snd] in Hnone. rewrite Hmem in Hnone.
    discriminate Hnone. right; left; reflexivity.
Qed.

Lemma determine_spec_type_first_match_witness :
  let value := py "16GB RAM, 3 Year Warranty" in
  any_keyword (keywords (py "Memory")) (ascii_lower value) = true
  /\ any_keyword (keywords (py "Warranty")) (ascii_lower value) = true
  /\ determine_spec_type ascii_lower value = py "Memory".
Proof.
  split; [reflexivity|]. split; [reflexivity|].
  exact (proj1 (determine_spec_type_first_match ascii_lower
                  (py "16GB RAM, 3 Year Warranty") eq_refl eq_refl)).
Defined.

(** C3 (as stated) fails: a value with a Memory keyword and a Warranty
    keyword is not always classified as the earlier of the two, 'Memory'.
    The value "Intel Optane 16GB RAM, 3 Year Warranty" holds the Processor
    keyword 'intel' too and is classified 'Processor'. *)
Lemma determine_spec_type_not_memory :
  ~ (forall value,
       any_keyword (keywords (py "Memory")) (ascii_lower value) = true ->
       any_keyword (keywords (py "Warranty")) (ascii_lower value) = true ->
       determine_spec_type ascii_lower value = py "Memory").
Proof.
  intros H.
  specialize (H (py "Intel Optane 16GB RAM, 3 Year Warranty")
                eq_refl eq_refl).
  vm_compute in H. discriminate H.
Qed.

(* ================================================================== *)
(** * Properties of the table parser *)
(* ================================================================== *)

Section ParserFacts.

Variable lower : str -> str.

Lemma emit_inv (st : state) (pr : option str) :
  parser_inv st ->
  Forall (fun p => complete p /\ pairs_only (specifications p)) (emit st pr).
Proof.
  intros [Hp Hs]. unfold emit.
  destruct (current_product st) as [p|]; [|exact Hp].
  destruct (current_specs st) as [|s0 specs] eqn:E; [exact Hp|].
  destruct p as [|c p]; [exact Hp|]. simpl nonempty. cbv iota.
  apply Forall_app; split; [exact Hp|].
  constructor; [|constructor].
  split; [split; discriminate | exact Hs].
Qed.

Lemma step_inv (st : state) (line : str) :
  parser_inv st -> parser_inv (step lower st line).
Proof.
  intros Hinv. pose proof Hinv as [Hp Hs]. unfold step.
  destruct (skipped line); [exact Hinv|].
  destruct (cells_of line) as [|c0 more]; [exact Hinv|].
  destruct (product_start (c0 :: more) line).
  - split; [apply emit_inv; exact Hinv | constructor].
  - destruct (truthy (current_product st)); [|split; assumption].
    destruct more as [|c1 more]; [split; assumption|].
    split; [exact Hp|]. cbn [current_specs].
    apply Forall_app; split; [exact Hs|].
    constructor; [|constructor]. destruct (eqb c0 (py "NaN")); reflexivity.
Qed.

Lemma loop_inv (lines : list str) (st : state) :
  parser_inv st -> parser_inv (loop lower st lines).
Proof.
  revert st; induction lines as [|l lines IH]; intros st H; [exact H|].
  apply IH, step_inv, H.
Qed.

Lemma initial_state_inv : parser_inv initial_state.
Proof. split; constructor. Qed.

Lemma parse_product_blocks_inv (content : str) :
  Forall (fun p => complete p /\ pairs_only (specifications p))
    (parse_product_blocks lower content).
Proof. apply emit_inv, loop_inv, initial_state_inv. Qed.

(** A marker row opens a block with the name of its first cell. *)
Lemma step_marker (st : state) (line : str) :
  is_marker line = true ->
  exists c0 more,
    cells_of line = c0 :: more
    /\ step lower st line =
       {| products := emit st (update_price (c0 :: more) (current_price st));
          current_product := Some c0;
          current_specs := [];
          current_price := update_price (c0 :: more) (current_price st) |}.
Proof.
  unfold is_marker, step. intros H.
  apply andb_true_iff in H as [Hsk Hps].
  apply negb_true_iff in Hsk. rewrite Hsk.
  destruct (cells_of line) as [|c0 more]; [discriminate Hps|].
  rewrite Hps. exists c0, more. split; reflexivity.
Qed.

(** A row that adds no specification leaves everything but the running
    price as it is. *)
Lemma step_no_spec_row (st : state) (line : str) :
  no_spec_row line = true ->
  products (step lower st line) = products st
  /\ current_product (step lower st line) = current_product st
  /\ current_specs (step lower st line) = current_specs st.
Proof.
  unfold no_spec_row, is_marker, step. intros H.
  apply andb_true_iff in H as [Hm Hs].
  destruct (skipped line); [auto|]. simpl in Hm, Hs.
  apply negb_true_iff in Hm.
  destruct (cells_of line) as [|c0 more]; [auto|]. rewrite Hm.
  destruct more as [|c1 more]; [|discriminate Hs].
  destruct (truthy (current_product st)); auto.
Qed.

Lemma loop_no_spec_rows (gap : list str) (st : state) :
  forallb no_spec_row gap = true ->
  products (loop lower st gap) = products st
  /\ current_product (loop lower st gap) = current_product st
  /\ current_specs (loop lower st gap) = current_specs st.
Proof.
  revert st; induction gap as [|l gap IH]; intros st H; [auto|].
  simpl in H. apply andb_true_iff in H as [Hl Hgap].
  destruct (step_no_spec_row st l Hl) as (H1 & H2 & H3).
  destruct (IH (step lower st l) Hgap) as (G1 & G2 & G3).
  simpl. rewrite G1, G2, G3. auto.
Qed.

Lemma loop_app (l1 l2 : list str) (st : state) :
  loop lower st (l1 ++ l2) = loop lower (loop lower st l1) l2.
Proof. apply fold_left_app. Qed.

(** The classifier is only asked about second cells of rows. *)
Lemma step_lower_ext (lower' : str -> str) (st : state) (line : str) :
  Forall (fun c => lower c = lower' c) (cells_of line) ->
  step lower st line = step lower' st line.
Proof.
  intros H. unfold step.
  destruct (skipped line); [reflexivity|].
  destruct (cells_of line) as [|c0 more]; [reflexivity|].
  destruct (product_start (c0 :: more) line); [reflexivity|].
  destruct (truthy (current_product st)); [|reflexivity].
  destruct more as [|c1 more]; [reflexivity|].
  inversion H as [|? ? _ H']; subst. inversion H' as [|? ? H1 _]; subst.
  unfold determine_spec_type. rewrite H1. reflexivity.
Qed.

Lemma loop_lower_ext (lower' : str -> str) (lines : list str) (st : state) :
  Forall (fun c => lower c = lower' c) (flat_map cells_of lines) ->
  loop lower st lines = loop lower' st lines.
Proof.
  revert st; induction lines as [|l lines IH]; intros st H; [reflexivity|].
  simpl in H. apply Forall_app in H as [Hl Hrest].
  simpl. rewrite (step_lower_ext lower' st l Hl). apply IH, Hrest.
Qed.

Lemma parse_product_blocks_lower_ext (lower' : str -> str) (content : str) :
  Forall (fun c => lower c = lower' c)
    (flat_map cells_of (lines_of content)) ->
  parse_product_blocks lower content = parse_product_blocks lower' content.
Proof.
  intros H. unfold parse_product_blocks.
  rewrite (loop_lower_ext lower' _ _ H). reflexivity.
Qed.

End ParserFacts.

(** C1. Every block that [parse_product_blocks] returns has a non-empty name
    and at least one specification.  A marker row followed by another marker
    row, with only rows that add no specification between them, emits
    nothing for the first marker: the products are those present after the
    first marker, and the open block is the second marker's, without
    specifications; a text that consists of such rows yields no product. *)
Theorem parse_product_blocks_complete (lower : str -> str) :
  (forall content, Forall complete (parse_product_blocks lower content))
  /\ (forall st m1 gap m2,
        is_marker m1 = true ->
        forallb no_spec_row gap = true ->
        is_marker m2 = true ->
        let st2 := loop lower st (m1 :: gap ++ [m2]) in
        products st2 = products (step lower st m1)
        /\ current_product st2 = Some (hd [] (cells_of m2))
        /\ current_specs st2 = [])
  /\ (forall content m1 gap m2,
        lines_of content = m1 :: gap ++ [m2] ->
        is_marker m1 = true ->
        forallb no_spec_row gap = true ->
        is_marker m2 = true ->
        parse_product_blocks lower content = []).
Proof.
  assert (Hstep : forall st m1 gap m2,
    is_marker m1 = true -> forallb no_spec_row gap = true ->
    is_marker m2 = true ->
    products (loop lower st (m1 :: gap ++ [m2])) = products (step lower st m1)
    /\ current_product (loop lower st (m1 :: gap ++ [m2]))
       = Some (hd [] (cells_of m2))
    /\ current_specs (loop lower st (m1 :: gap ++ [m2])) = []).
  { intros st m1 gap m2 H1 Hgap H2.
    change (loop lower st (m1 :: gap ++ [m2]))
      with (loop lower (step lower st m1) (gap ++ [m2])).
    rewrite loop_app.
    destruct (step_marker lower st m1 H1) as (a0 & amore & Ea & E1).
    destruct (loop_no_spec_rows lower gap (step lower st m1) Hgap)
      as (G1 & G2 & G3).
    set (stg := loop lower (step lower st m1) gap) in *.
    destruct (step_marker lower stg m2 H2) as (b0 & bmore & Eb & E2).
    change (loop lower stg [m2]) with (step lower stg m2).
    rewrite E2, Eb. cbn [products current_product current_specs hd].
    repeat split. unfold emit. rewrite G3, E1. cbn [current_specs].
    rewrite G1, E1. cbn [products].
    destruct (current_product stg); reflexivity. }
  split; [|split].
  - intros content. eapply Forall_impl; [|apply parse_product_blocks_inv].
    intros p [H _]; exact H.
  - intros st m1 gap m2 H1 Hgap H2. apply Hstep; assumption.
  - intros content m1 gap m2 Hlines H1 Hgap H2.
    unfold parse_product_blocks. rewrite Hlines.
    destruct (Hstep initial_state m1 gap m2 H1 Hgap H2) as (P1 & P2 & P3).
    unfold emit. rewrite P3, P1.
    destruct (step_marker lower initial_state m1 H1) as (a0 & amore & _ & E1).
    rewrite E1. cbn [products].
    destruct (current_product _); reflexivity.
Qed.

Lemma parse_product_blocks_complete_witness :
  let m1 := py "| Model A Base Configuration | $1,200 |" in
  let gap := [py "| $1,300 |"; py "|---|---|"] in
  let m2 := py "| Model B Base configuration |" in
  let content := m1 ++ [10%N] ++ py "| $1,300 |" ++ [10%N; 10%N]
                 ++ py "  |---|---|" ++ [10%N] ++ m2 in
  is_marker m1 = true /\ forallb no_spec_row gap = true
  /\ is_marker m2 = true /\ lines_of content = m1 :: gap ++ [m2]
  /\ parse_product_blocks ascii_lower content = [].
Proof.
  intros m1 gap m2 content.
  repeat (split; [reflexivity|]).
  exact (proj2 (proj2 (parse_product_blocks_complete ascii_lower))
           content m1 gap m2 eq_refl eq_refl eq_refl eq_refl).
Defined.

(** The price check of a row runs before its product-start check: a marker
    row with a dollar cell closes the open block with the price of that
    cell and makes it the running price. *)
Lemma step_marker_price
  (lower : str -> str) (st : state) (line cell p : str) :
  is_marker line = true ->
  List.find (fun c => startswith c (py "$")) (cells_of line) = Some cell ->
  current_product st = Some p ->
  p <> [] ->
  current_specs st <> [] ->
  products (step lower st line) =
    products st ++
    [{| name := p;
        price := Some (replace (py ",") [] (replace (py "$") [] cell));
        specifications := current_specs st |}]
  /\ current_price (step lower st line) =
     Some (replace (py ",") [] (replace (py "$") [] cell)).
Proof.
  intros Hm Hfind Hp Hne Hspecs.
  destruct (step_marker lower st line Hm) as (c0 & more & Ec & E).
  rewrite E. cbn [products current_price].
  rewrite <- Ec. unfold update_price. rewrite Hfind.
  assert (Hcell : truthy (Some cell) = true).
  { apply find_some in Hfind as [_ Hs].
    destruct cell; [discriminate Hs | reflexivity]. }
  rewrite Hcell. split; [|reflexivity].
  unfold emit. rewrite Hp.
  destruct (current_specs st) as [|s0 specs]; [contradiction|].
  destruct p; [contradiction | reflexivity].
Qed.

(** C4 (as amended). Scenario A yields exactly one product, named
    "Model X Base Configuration", with price "999" and two specifications:
    the processor row, classified "Processor", and the price row itself,
    classified "Other". *)
Theorem parse_scenario_A (lower : str -> str) :
  lowers_ascii lower ->
  parse_product_blocks lower scenario_A =
    [{| name := py "Model X Base Configuration";
        price := Some (py "999");
        specifications :=
          [ [py "Processor"; py "Intel Core i7 processor"];
            [py "Other"; py "$999"] ] |}].
Proof.
  intros Hlower.
  rewrite (parse_product_blocks_lower_ext lower ascii_lower scenario_A).
  - reflexivity.
  - let l := eval vm_compute in (flat_map cells_of (lines_of scenario_A)) in
    change (Forall (fun c => lower c = ascii_lower c) l).
    repeat (constructor; [apply Hlower, is_ascii_check; reflexivity|]).
    constructor.
Qed.

Lemma ascii_lower_lowers_ascii : lowers_ascii ascii_lower.
Proof. intros s _. reflexivity. Qed.

Lemma parse_scenario_A_witness :
  lowers_ascii ascii_lower
  /\ map (fun p => List.length (specifications p))
       (parse_product_blocks ascii_lower scenario_A) = [2%nat].
Proof.
  split; [exact ascii_lower_lowers_ascii|].
  rewrite (parse_scenario_A ascii_lower ascii_lower_lowers_ascii).
  reflexivity.
Defined.

(** C4 (as stated) fails: scenario A does not yield a product whose
    specifications are a single pair classified "Processor". *)
Lemma parse_scenario_A_not_one_spec :
  ~ (exists p v,
       parse_product_blocks ascii_lower scenario_A = [p]
       /\ name p = py "Model X Base Configuration"
       /\ price p = Some (py "999")
       /\ specifications p = [[py "Processor"; v]]).
Proof.
  intros (p & v & Hp & _ & _ & Hs).
  vm_compute in Hp. inversion Hp as [E]. rewrite <- E in Hs.
  discriminate Hs.
Qed.

(* ================================================================== *)
(** * Properties of the normalizer fallback *)
(* ================================================================== *)

Section NormalizerFacts.

Variable prompt_of : str -> option str -> str -> str.
Variable ChatCompletion_create : str -> result pyval.
Variable json_loads : str -> result pyval.

Lemma filter_is_pair (specs : list spec) :
  pairs_only specs -> List.filter is_pair specs = specs.
Proof.
  induction 1 as [|s specs Hs _ IH]; [reflexivity|].
  simpl. unfold is_pair at 1. rewrite Hs, IH. reflexivity.
Qed.


(** So does a reply that [json.loads] rejects. *)
Lemma call_normalizer_json_error (product_data : RawProductBlock) e :
  (forall text, json_loads text = Raise e) ->
  exists e',
    call_normalizer prompt_of ChatCompletion_create json_loads product_data
    = Raise e'.
Proof.
  intros H. unfold call_normalizer.
  destruct (ChatCompletion_create _) as [response|]; simpl; [|eauto].
  destruct (getitem response _) as [choices|]; simpl; [|eauto].
  destruct (getindex choices 0) as [choice|]; simpl; [|eauto].
  destruct (getitem choice _) as [message|]; simpl; [|eauto].
  destruct (getitem message _) as [content|]; simpl; [|eauto].
  destruct content; eauto.
  destruct (_ && _); [rewrite H|]; eauto.
Qed.

End NormalizerFacts.

(** C5. When the normalizer call raises, whatever the exception,
    [process_with_gpt] returns the fallback record of a raw product block
    (a block whose specifications are pairs): the title is the raw name, the
    price the raw price, [main_specs] has one entry per raw pair, in order,
    with the raw category as label and the raw value as value, and
    [upgrade_options] is empty; two raw pairs give two entries. *)
Theorem process_with_gpt_fallback
  (prompt_of : str -> option str -> str -> str)
  (ChatCompletion_create json_loads : str -> result pyval)
  (product_data : RawProductBlock) (e : exn) :
  call_normalizer prompt_of ChatCompletion_create json_loads product_data
    = Raise e ->
  pairs_only (specifications product_data) ->
  let main_specs :=
    map (fun s => PDict [ (py "label", PStr (nth 0 s []));
                          (py "value", PStr (nth 1 s [])) ])
      (specifications product_data) in
  process_with_gpt prompt_of ChatCompletion_create json_loads product_data =
    PDict [ (py "title", PStr (name product_data));
            (py "price", price_value (price product_data));
            (py "main_specs", PList main_specs);
            (py "upgrade_options", PList []) ]
  /\ List.length main_specs = List.length (specifications product_data)
  /\ (forall s1 s2, specifications product_data = [s1; s2] ->
      List.length main_specs = 2%nat).
Proof.
  intros Hraise Hpairs main_specs. split; [|split].
  - unfold process_with_gpt. rewrite Hraise. unfold fallback.
    rewrite (filter_is_pair _ Hpairs). reflexivity.
  - apply length_map.
  - intros s1 s2 E. unfold main_specs. rewrite E. reflexivity.
Qed.

Lemma process_with_gpt_fallback_witness :
  let product_data :=
    {| name := py "Model A Base Configuration";
       price := Some (py "1000");
       specifications := [ [py "Memory"; py "8GB RAM"];
                           [py "Other"; py "$1,000"] ] |} in
  let create := fun _ : str => @Raise pyval (ServiceError (py "timeout")) in
  let loads := fun _ : str => @Raise pyval ValueError in
  process_with_gpt (fun _ _ _ => []) create loads product_data =
    PDict [ (py "title", PStr (py "Model A Base Configuration"));
            (py "price", PStr (py "1000"));
            (py "main_specs",
             PList [ PDict [ (py "label", PStr (py "Memory"));
                             (py "value", PStr (py "8GB RAM")) ];
                     PDict [ (py "label", PStr (py "Other"));
                             (py "value", PStr (py "$1,000")) ] ]);
            (py "upgrade_options", PList []) ].
Proof.
  intros product_data create loads.
  refine (proj1 (process_with_gpt_fallback (fun _ _ _ => []) create loads
                   product_data (ServiceError (py "timeout")) eq_refl _)).
  repeat constructor.
Defined.

(** Every block that the parser returns is a raw product block in the sense
    of the fallback: its specifications are pairs. *)
Lemma parse_product_blocks_pairs (lower : str -> str) (content : str) :
  Forall (fun p => pairs_only (specifications p))
    (parse_product_blocks lower content).
Proof.
  eapply Forall_impl; [|apply parse_product_blocks_inv].
  intros p [_ H]; exact H.
Qed.

(* ================================================================== *)
(** * Properties of the row heights *)
(* ================================================================== *)

Section LayoutFacts.

Local Open Scope Z_scope.

(** Truncation and floor give the same clamped line count. *)
Lemma clamp_int_floor (x : Q) :
  Z.max 1 (int x + 1) = Z.max 1 (Qfloor x + 1).
Proof.
  destruct x as [n d]. unfold int. simpl.
  destruct (Z_le_gt_dec 0 n) as [Hn|Hn].
  - rewrite Z.quot_div_nonneg by lia. reflexivity.
  - assert (Hq : n ÷ Z.pos d <= 0).
    { pose proof (Z.mul_quot_ge n (Z.pos d)) as H.
      assert (n <= Z.pos d * (n ÷ Z.pos d) <= 0) by (apply H; lia). nia. }
    assert (Hd : n / Z.pos d < 0)
      by (apply Z.div_lt_upper_bound; lia).
    lia.
Qed.

(** The number of pieces of [value.split('\n')] is the number of line
    breaks plus one. *)
Lemma value_lines_breaks (v : str) :
  value_lines v = Z.of_nat (count_occ N.eq_dec v 10%N) + 1.
Proof.
  unfold value_lines, split. rewrite split_go_length. lia.
Qed.

Variable w : Q.
Variable get_string_width : str -> Q.
Variable fl : Q -> Q.

Hypothesis value_width_nonzero : ~ (value_width w fl == 0)%Q.

Lemma width_ratio_ok (v : str) :
  width_ratio w get_string_width fl v =
  Ok (fl (get_string_width v / value_width w fl)).
Proof.
  unfold width_ratio.
  destruct (Qeq_bool (value_width w fl) 0) eqn:E; [|reflexivity].
  apply Qeq_bool_iff in E. contradiction.
Qed.

Lemma wrapped_lines_ok (v : str) :
  wrapped_lines w get_string_width fl v =
  Ok (Z.max 1 (Qfloor (fl (get_string_width v / value_width w fl)) + 1)).
Proof.
  unfold wrapped_lines. rewrite width_ratio_ok. simpl.
  rewrite clamp_int_floor. reflexivity.
Qed.

Lemma current_row_height_ok (v : str) :
  current_row_height w get_string_width fl v =
  Ok (8 * Z.max (Z.of_nat (List.length (split 10%N v)))
            (Z.max 1 (Qfloor (fl (get_string_width v / value_width w fl)) + 1))).
Proof.
  unfold current_row_height, total_lines.
  rewrite wrapped_lines_ok. reflexivity.
Qed.

End LayoutFacts.

(** C7. On a page whose value column has a width, the height of the row of
    every value is the base unit 8 times a positive integer; and of two
    values, the one with at least as many line breaks and at least as large
    a wrapped-line count has at least as high a row. *)
Theorem row_height_multiple_and_monotone
  (w : Q) (get_string_width : str -> Q) (fl : Q -> Q) :
  ~ (value_width w fl == 0)%Q ->
  (forall v, exists k,
      (1 <= k)%Z
      /\ current_row_height w get_string_width fl v = Ok (8 * k)%Z)
  /\ (forall v1 v2 k1 k2,
        (count_occ N.eq_dec v1 10%N <= count_occ N.eq_dec v2 10%N)%nat ->
        wrapped_lines w get_string_width fl v1 = Ok k1 ->
        wrapped_lines w get_string_width fl v2 = Ok k2 ->
        (k1 <= k2)%Z ->
        exists h1 h2,
          current_row_height w get_string_width fl v1 = Ok h1
          /\ current_row_height w get_string_width fl v2 = Ok h2
          /\ (h1 <= h2)%Z).
Proof.
  intros Hw. split.
  - intros v. rewrite (current_row_height_ok w get_string_width fl Hw v).
    eexists. split; [|reflexivity].
    etransitivity; [apply Z.le_max_l | apply Z.le_max_r].
  - intros v1 v2 k1 k2 Hb H1 H2 Hk.
    unfold current_row_height, total_lines. rewrite H1, H2. cbn [bind].
    do 2 eexists. split; [reflexivity|]. split; [reflexivity|].
    rewrite !value_lines_breaks. unfold row_height. lia.
Qed.

Lemma row_height_multiple_and_monotone_witness :
  let width := fun s : str => (inject_Z (Z.of_nat (List.length s)) * 2)%Q in
  let fl := fun x : Q => x in
  let v1 := py "16GB" ++ [10%N] ++ py "DDR4" in
  let v2 := py "8GB" ++ [10%N] ++ py "DDR4" ++ [10%N] ++ py "2 slots" in
  ~ (value_width 210 fl == 0)%Q
  /\ (exists k, (1 <= k)%Z /\ current_row_height 210 width fl v1 = Ok (8 * k)%Z)
  /\ (exists h1 h2,
        current_row_height 210 width fl v1 = Ok h1
        /\ current_row_height 210 width fl v2 = Ok h2
        /\ (h1 <= h2)%Z).
Proof.
  intros width fl v1 v2.
  assert (Hw : ~ (value_width 210 fl == 0)%Q)
    by (intro H; vm_compute in H; discriminate H).
  split; [exact Hw|]. split.
  - exact (proj1 (row_height_multiple_and_monotone 210 width fl Hw) v1).
  - refine (proj2 (row_height_multiple_and_monotone 210 width fl Hw)
              v1 v2 1%Z 1%Z _ eq_refl eq_refl _).
    + vm_compute. repeat constructor.
    + discriminate.
Defined.

(** C7 (as stated) fails: the row height is not non-decreasing in the number
    of line breaks alone.  On a page of width 210 with two units of width
    per character, a value of 130 letters without line break has a row of
    height 24, and the value of two letters with a line break between them a
    row of height 16. *)
Lemma row_height_not_monotone_in_line_breaks :
  ~ (forall (w : Q) (get_string_width : str -> Q) (fl : Q -> Q)
            (v1 v2 : str) (h1 h2 : Z),
       ~ (value_width w fl == 0)%Q ->
       (count_occ N.eq_dec v1 10%N <= count_occ N.eq_dec v2 10%N)%nat ->
       current_row_height w get_string_width fl v1 = Ok h1 ->
       current_row_height w get_string_width fl v2 = Ok h2 ->
       (h1 <= h2)%Z).
Proof.
  intros H.
  specialize (H 210%Q
                (fun s : str => (inject_Z (Z.of_nat (List.length s)) * 2)%Q)
                (fun x : Q => x)
                (repeat 97%N 130) (py "a" ++ [10%N] ++ py "b") 24%Z 16%Z).
  assert (Hw : ~ (value_width 210 (fun x : Q => x) == 0)%Q)
    by (intro E; vm_compute in E; discriminate E).
  assert (Hb : (count_occ N.eq_dec (repeat 97%N 130) 10%N
                <= count_occ N.eq_dec (py "a" ++ [10%N] ++ py "b") 10%N)%nat).
  { replace (count_occ N.eq_dec (repeat 97%N 130) 10%N) with 0%nat
      by (vm_compute; reflexivity).
    apply Nat.le_0_l. }
  specialize (H Hw Hb eq_refl eq_refl).
  vm_compute in H. apply H. reflexivity.
Qed.

(* ================================================================== *)
(** * More about the classifier *)
(* ================================================================== *)

Section SubstringFacts.

Local Open Scope N_scope.

Lemma startswith_app (p post : str) : startswith (p ++ post) p = true.
Proof.
  induction p as [|x p IH]; [destruct post; reflexivity|].
  simpl. rewrite N.eqb_refl, IH. reflexivity.
Qed.

Lemma contains_iff (sub s : str) :
  contains sub s = true <-> exists pre post, s = pre ++ sub ++ post.
Proof.
  induction s as [|c s IH].
  - simpl. rewrite orb_false_r. split.
    + intros H. exists [], [].
      destruct sub; [reflexivity | discriminate H].
    + intros (pre & post & E). symmetry in E.
      apply app_eq_nil in E as [_ E]. apply app_eq_nil in E as [-> _].
      reflexivity.
  - change (contains sub (c :: s))
      with (startswith (c :: s) sub || contains sub s).
    rewrite orb_true_iff, IH. split.
    + intros [H|(pre & post & ->)].
      * exists [], (skipn (List.length sub) (c :: s)).
        apply (startswith_split _ _ H).
      * exists (c :: pre), post. reflexivity.
    + intros ([|x pre] & post & E).
      * left. simpl in E. rewrite E. apply startswith_app.
      * right. inversion E. exists pre, post. reflexivity.
Qed.

(** A text that contains a keyword contains every part of the keyword. *)
Lemma contains_trans (k' k v : str) :
  contains k' k = true -> contains k v = true -> contains k' v = true.
Proof.
  rewrite !contains_iff. intros (a & b & ->) (pre & post & ->).
  exists (pre ++ a), (b ++ post). rewrite <- !app_assoc. reflexivity.
Qed.

Lemma contains_false_trans (k' k v : str) :
  contains k' k = true -> contains k' v = false -> contains k v = false.
Proof.
  intros Hk Hv. destruct (contains k v) eqn:E; [|reflexivity].
  rewrite (contains_trans _ _ _ Hk E) in Hv. discriminate.
Qed.

Lemma first_match_none (table : list (str * list str)) (v : str) :
  Forall (fun e => any_keyword (snd e) v = false) table ->
  first_match table v = py "Other".
Proof.
  induction 1 as [|[label kws] table H _ IH]; [reflexivity|].
  simpl in *. rewrite H. exact IH.
Qed.

End SubstringFacts.

(** X1. The classifier answers 'Other' exactly when no keyword of any
    category occurs in the lower-cased value. *)
Theorem determine_spec_type_other_iff (lower : str -> str) (value : str) :
  determine_spec_type lower value = py "Other"
  <-> Forall (fun e => any_keyword (snd e) (lower value) = false) spec_labels.
Proof.
  split.
  - intros H.
    destruct (first_match_earliest spec_labels (lower value))
      as [[_ Hnone]|(before & label & kws & after & Et & El & _ & _)];
      [exact Hnone|].
    exfalso. unfold determine_spec_type in H. rewrite H in El. subst label.
    assert (Hin : In (py "Other") (map fst spec_labels))
      by (rewrite Et, map_app; apply in_or_app; right; left; reflexivity).
    vm_compute in Hin.
    repeat (destruct Hin as [Hin|Hin]; [discriminate Hin|]). exact Hin.
  - apply first_match_none.
Qed.

(** X2. The keywords 'fhd' and the Graphics keyword that starts with
    'intel' never decide a classification: the classifier gives the same
    answer on the table without them; a value that contains the latter is
    classified 'Processor'. *)
Theorem determine_spec_type_shadowed_keywords
  (lower : str -> str) (value : str) :
  determine_spec_type lower value = first_match pruned_labels (lower value)
  /\ (contains (py "intel" ++ [0xAE%N] ++ py " uhd") (lower value) = true ->
      determine_spec_type lower value = py "Processor").
Proof.
  unfold determine_spec_type. set (v := lower value).
  assert (Hintel : contains (py "intel") v = false ->
                   contains (py "intel" ++ [0xAE%N] ++ py " uhd") v = false)
    by (apply contains_false_trans; reflexivity).
  assert (Hhd : contains (py "fhd") v = true -> contains (py "hd") v = true)
    by (apply contains_trans; reflexivity).
  split.
  - change pruned_labels with
      (map (fun e => (fst e, List.filter (fun k => negb (shadowed_keyword k))
                               (snd e)))
         spec_labels).
    rewrite spec_labels_entries.
    cbv [map fst snd]. cbn [first_match].
    change (List.filter (fun k => negb (shadowed_keyword k))
              (keywords (py "Processor"))) with (keywords (py "Processor")).
    change (List.filter (fun k => negb (shadowed_keyword k))
              (keywords (py "Memory"))) with (keywords (py "Memory")).
    change (List.filter (fun k => negb (shadowed_keyword k))
              (keywords (py "Storage"))) with (keywords (py "Storage")).
    change (List.filter (fun k => negb (shadowed_keyword k))
              (keywords (py "Power"))) with (keywords (py "Power")).
    change (List.filter (fun k => negb (shadowed_keyword k))
              (keywords (py "Wireless"))) with (keywords (py "Wireless")).
    change (List.filter (fun k => negb (shadowed_keyword k))
              (keywords (py "Operating System")))
      with (keywords (py "Operating System")).
    change (List.filter (fun k => negb (shadowed_keyword k))
              (keywords (py "Warranty"))) with (keywords (py "Warranty")).
    destruct (any_keyword (keywords (py "Processor")) v) eqn:Eproc;
      [reflexivity|].
    assert (Ei : contains (py "intel") v = false).
    { change (keywords (py "Processor"))
        with [py "processor"; py "intel"; py "amd"; py "core"; py "celeron";
              py "xeon"] in Eproc.
      unfold any_keyword in Eproc. cbn [existsb] in Eproc.
      apply orb_false_iff in Eproc as [_ Eproc].
      apply orb_false_iff in Eproc as [Eproc _]. exact Eproc. }
    assert (Edisplay :
      any_keyword (keywords (py "Display")) v =
      any_keyword (List.filter (fun k => negb (shadowed_keyword k))
                     (keywords (py "Display"))) v).
    { change (keywords (py "Display"))
        with [py "display"; py "screen"; py "lcd"; [34%N]; py "fhd"; py "hd";
              py "monitor"].
      change (List.filter _ _)
        with [py "display"; py "screen"; py "lcd"; [34%N]; py "hd";
              py "monitor"].
      unfold any_keyword. cbn [existsb].
      destruct (contains (py "fhd") v) eqn:Ef; [|reflexivity].
      rewrite (Hhd eq_refl). rewrite !orb_true_r. reflexivity. }
    assert (Egraphics :
      any_keyword (keywords (py "Graphics")) v =
      any_keyword (List.filter (fun k => negb (shadowed_keyword k))
                     (keywords (py "Graphics"))) v).
    { change (keywords (py "Graphics"))
        with [py "graphics"; py "gpu"; py "radeon"; py "nvidia";
              py "intel" ++ [0xAE%N] ++ py " uhd"].
      change (List.filter _ _)
        with [py "graphics"; py "gpu"; py "radeon"; py "nvidia"].
      unfold any_keyword. cbn [existsb].
      rewrite (Hintel Ei). reflexivity. }
    rewrite <- Edisplay, <- Egraphics. reflexivity.
  - intros Hg. rewrite spec_labels_entries. cbn [first_match].
    assert (Ei : contains (py "intel") v = true)
      by (eapply contains_trans; [|exact Hg]; reflexivity).
    change (keywords (py "Processor"))
      with [py "processor"; py "intel"; py "amd"; py "core"; py "celeron";
            py "xeon"].
    unfold any_keyword. cbn [existsb]. rewrite Ei, orb_true_r. reflexivity.
Qed.

Lemma determine_spec_type_shadowed_keywords_witness :
  determine_spec_type ascii_lower
    (py "Intel" ++ [0xAE%N] ++ py " UHD Graphics 620") = py "Processor".
Proof.
  exact (proj2 (determine_spec_type_shadowed_keywords ascii_lower
                  (py "Intel" ++ [0xAE%N] ++ py " UHD Graphics 620"))
           eq_refl).
Defined.

(* ================================================================== *)
(** * More about the string operations *)
(* ================================================================== *)

Section MoreStringFacts.

Local Open Scope N_scope.

Lemma mem_In (c : char) (s : str) : mem c s = true <-> In c s.
Proof.
  unfold mem. rewrite existsb_exists. split.
  - intros (x & Hx & E). apply N.eqb_eq in E. subst; exact Hx.
  - intros H. exists c. split; [exact H | apply N.eqb_refl].
Qed.

Lemma mem_false (c : char) (s : str) : mem c s = false <-> ~ In c s.
Proof.
  rewrite <- mem_In. destruct (mem c s); split; congruence.
Qed.

(** [lstrip] drops a prefix of white space. *)
Lemma lstrip_suffix (s : str) :
  exists pre, s = pre ++ lstrip s /\ Forall (fun c => isspace c = true) pre.
Proof.
  induction s as [|c s (pre & E & Hpre)]; [exists []; split; [reflexivity | constructor]|].
  simpl. destruct (isspace c) eqn:Ec.
  - exists (c :: pre). split; [simpl; congruence | constructor; assumption].
  - exists []. split; [reflexivity | constructor].
Qed.

Lemma lstrip_incl (s : str) (c : char) : In c (lstrip s) -> In c s.
Proof.
  destruct (lstrip_suffix s) as (pre & E & _). intros H.
  rewrite E. apply in_or_app; right; exact H.
Qed.

Lemma strip_incl (s : str) (c : char) : In c (strip s) -> In c s.
Proof.
  unfold strip, rstrip. intros H.
  apply in_rev, lstrip_incl in H. apply in_rev in H.
  apply lstrip_incl, H.
Qed.

Lemma lstrip_idem (s : str) : lstrip (lstrip s) = lstrip s.
Proof.
  induction s as [|c s IH]; [reflexivity|].
  simpl. destruct (isspace c) eqn:Ec; [exact IH|].
  simpl. rewrite Ec. reflexivity.
Qed.

Lemma lstrip_app_nonspace (l m : str) (c : char) :
  isspace c = false -> lstrip (l ++ c :: m) = lstrip l ++ c :: m.
Proof.
  intros Hc. induction l as [|x l IH]; simpl; [rewrite Hc; reflexivity|].
  destruct (isspace x); [exact IH | reflexivity].
Qed.

Lemma rstrip_cons_nonspace (t : str) (c : char) :
  isspace c = false -> rstrip (c :: t) = c :: rstrip t.
Proof.
  intros Hc. unfold rstrip. simpl rev.
  rewrite lstrip_app_nonspace by exact Hc.
  rewrite rev_app_distr. reflexivity.
Qed.

Lemma rstrip_idem (s : str) : rstrip (rstrip s) = rstrip s.
Proof.
  unfold rstrip. rewrite rev_involutive, lstrip_idem. reflexivity.
Qed.

(** Stripping twice is stripping once. *)
Lemma strip_idem (s : str) : strip (strip s) = strip s.
Proof.
  unfold strip.
  destruct (lstrip s) as [|c t] eqn:E; [reflexivity|].
  assert (Hc : isspace c = false).
  { pose proof (lstrip_idem s) as H. rewrite E in H. simpl in H.
    destruct (isspace c); [|reflexivity].
    exfalso. pose proof (lstrip_suffix t) as (pre & Et & _).
    assert (Hlen : List.length (lstrip t) = S (List.length t))
      by (rewrite H; reflexivity).
    rewrite Et in Hlen at 2. rewrite length_app in Hlen. lia. }
  rewrite rstrip_cons_nonspace by exact Hc.
  simpl lstrip. rewrite Hc.
  rewrite rstrip_cons_nonspace by exact Hc.
  rewrite rstrip_idem. reflexivity.
Qed.

Lemma strip_Forall (P : char -> Prop) (s : str) :
  Forall P s -> Forall P (strip s).
Proof.
  rewrite !Forall_forall. intros H c Hc. apply H, strip_incl, Hc.
Qed.

(** The pieces of [split] hold the characters of the text, and none of them
    holds the separator. *)
Lemma split_go_Forall (P : char -> Prop) (sep : char) (s cur : str) :
  Forall P cur -> Forall P s -> Forall (Forall P) (split_go sep cur s).
Proof.
  revert cur; induction s as [|c s IH]; intros cur Hcur Hs; simpl.
  - constructor; [exact Hcur | constructor].
  - inversion Hs as [|? ? Hc Hs']; subst. destruct (c =? sep).
    + constructor; [exact Hcur | apply IH; [constructor | exact Hs']].
    + apply IH; [|exact Hs'].
      apply Forall_app; split; [exact Hcur | constructor; [exact Hc | constructor]].
Qed.

Lemma split_go_no_sep (sep : char) (s cur : str) :
  ~ In sep cur -> Forall (fun p => ~ In sep p) (split_go sep cur s).
Proof.
  revert cur; induction s as [|c s IH]; intros cur Hcur; simpl.
  - constructor; [exact Hcur | constructor].
  - destruct (N.eqb_spec c sep) as [->|Hne].
    + constructor; [exact Hcur | apply IH; intros []].
    + apply IH. intros H. apply in_app_or in H as [H|[H|[]]]; auto.
Qed.

(** [s.replace(c, '')] for a character [c] removes every [c]. *)
Lemma replace_char_filter (c : char) (s : str) :
  replace [c] [] s = List.filter (fun x => negb (x =? c)) s.
Proof.
  unfold replace. induction s as [|x s IH]; [reflexivity|].
  rewrite replace_go_cons.
  assert (E : startswith (x :: s) [c] = (x =? c)).
  { simpl. rewrite N.eqb_sym. destruct s; apply andb_true_r. }
  rewrite E. simpl List.filter. destruct (x =? c); simpl.
  - exact IH.
  - rewrite IH. reflexivity.
Qed.

Lemma filter_filter (A : Type) (f g : A -> bool) (l : list A) :
  List.filter f (List.filter g l) = List.filter (fun x => g x && f x) l.
Proof.
  induction l as [|x l IH]; [reflexivity|].
  simpl. destruct (g x); simpl; [destruct (f x)|]; rewrite IH; reflexivity.
Qed.

End MoreStringFacts.

(** X3. On ASCII text without line feeds the sanitizer only normalizes
    white space: the result is the words of the text joined by single
    spaces. *)
Theorem clean_text_for_pdf_ascii_text (text : str) :
  is_ascii text -> ~ In 10%N text ->
  clean_text_for_pdf text = join [32%N] (split_ws text).
Proof.
  intros Ha Hlf. unfold clean_text_for_pdf.
  rewrite (replace_known_harmless _ _ replacements_harmless).
  - rewrite (map_ascii_or_space_ascii _ Ha). reflexivity.
  - unfold is_ascii in Ha. rewrite Forall_forall in Ha |- *.
    intros c Hc. left. split; [apply Ha, Hc|].
    intros ->. exact (Hlf Hc).
Qed.

Lemma clean_text_for_pdf_ascii_text_witness :
  clean_text_for_pdf (py "  Intel  Core i7,   3.2 GHz ")
  = py "Intel Core i7, 3.2 GHz".
Proof.
  refine (clean_text_for_pdf_ascii_text (py "  Intel  Core i7,   3.2 GHz ")
            _ _).
  - apply is_ascii_check; reflexivity.
  - apply mem_false; reflexivity.
Defined.

(* ================================================================== *)
(** * More about the table parser *)
(* ================================================================== *)

Section ParserMore.

Local Open Scope N_scope.

Variable lower : str -> str.

Lemma loop_invariant (P : state -> Prop) (Q : str -> Prop) :
  (forall st l, Q l -> P st -> P (step lower st l)) ->
  forall lines st, Forall Q lines -> P st -> P (loop lower st lines).
Proof.
  intros Hstep lines. induction lines as [|l lines IH]; intros st HQ HP;
    [exact HP|].
  inversion HQ; subst. simpl. apply IH; [assumption|]. apply Hstep; assumption.
Qed.

(** The price check in terms of [price_of_cell]. *)
Lemma update_price_eq (cells : list str) (cur : option str) :
  update_price cells cur =
  match List.find (fun c => startswith c (py "$")) cells with
  | Some cell => Some (price_of_cell cell)
  | None => cur
  end.
Proof.
  unfold update_price.
  destruct (List.find _ cells) as [cell|] eqn:E; [|reflexivity].
  apply find_some in E as [_ Hs].
  destruct cell as [|c cell]; [discriminate Hs|]. simpl truthy. cbv iota.
  change (py ",") with [44]. change (py "$") with [36].
  rewrite !replace_char_filter, filter_filter. reflexivity.
Qed.

Lemma emit_blocks_inv (N : str -> Prop) (S : spec -> Prop)
  (R : option str -> Prop) (st : state) (pr : option str) :
  blocks_inv N S R st -> R pr ->
  Forall (fun p => N (name p) /\ Forall S (specifications p) /\ R (price p))
    (emit st pr).
Proof.
  intros (Hp & Hn & Hs & _) Hpr. unfold emit.
  destruct (current_product st) as [p|] eqn:Ep; [|exact Hp].
  destruct (current_specs st) as [|s0 specs]; [exact Hp|].
  destruct (nonempty p); [|exact Hp].
  apply Forall_app; split; [exact Hp|].
  constructor; [|constructor]. simpl. auto.
Qed.

Lemma step_blocks_inv (N : str -> Prop) (S : spec -> Prop)
  (R : option str -> Prop) (st : state) (line : str) :
  (forall c0 more,
      skipped line = false -> cells_of line = c0 :: more ->
      product_start (c0 :: more) line = true -> N c0) ->
  (forall c0 c1 more,
      skipped line = false -> cells_of line = c0 :: c1 :: more ->
      product_start (c0 :: c1 :: more) line = false ->
      S (if eqb c0 (py "NaN") then [determine_spec_type lower c1; c1]
         else [c0; c1])) ->
  (forall cur,
      skipped line = false -> R cur ->
      R (update_price (cells_of line) cur)) ->
  blocks_inv N S R st -> blocks_inv N S R (step lower st line).
Proof.
  intros HN HS HR Hinv. pose proof Hinv as (Hp & Hn & Hs & Hr).
  unfold step. destruct (skipped line) eqn:Esk; [exact Hinv|].
  specialize (HR (current_price st) eq_refl Hr).
  destruct (cells_of line) as [|c0 more] eqn:Ec; [exact Hinv|].
  destruct (product_start (c0 :: more) line) eqn:Eps.
  - split; [apply emit_blocks_inv; assumption|]. cbn.
    split; [|split; [constructor | exact HR]].
    intros p [= <-]. apply (HN c0 more); auto.
  - destruct (truthy (current_product st)).
    + destruct more as [|c1 more].
      * repeat split; assumption.
      * split; [exact Hp|]. cbn. split; [exact Hn|]. split; [|exact HR].
        apply Forall_app; split; [exact Hs|].
        constructor; [|constructor]. apply (HS c0 c1 more); auto.
    + repeat split; assumption.
Qed.

(** Lines and cells as the loop sees them. *)
Lemma lines_of_no_line_feed (content : str) :
  Forall (fun l => ~ In 10 l) (lines_of content).
Proof.
  unfold lines_of. apply Forall_forall. intros l Hl.
  apply in_map_iff in Hl as (piece & <- & Hp).
  apply filter_In in Hp as [Hp _].
  pose proof (split_go_no_sep 10 content [] (fun H => H)) as Hall.
  rewrite Forall_forall in Hall. intros H. apply (Hall piece Hp).
  apply strip_incl, H.
Qed.

Lemma cells_of_tidy (line : str) :
  ~ In 10 line -> Forall tidy (cells_of line).
Proof.
  intros Hlf. unfold cells_of. apply Forall_forall. intros c Hc.
  apply filter_In in Hc as [Hc Hne].
  apply in_map_iff in Hc as (piece & <- & Hp).
  pose proof (split_go_no_sep 124 line [] (fun H => H)) as Hsep.
  rewrite Forall_forall in Hsep.
  assert (Hincl : forall x, In x piece -> In x line).
  { intros x Hx.
    pose proof (split_go_Forall (fun y => In y line) 124 line []
                  (Forall_nil _)) as HF.
    assert (Hall : Forall (fun y => In y line) line)
      by (apply Forall_forall; auto).
    specialize (HF Hall). rewrite Forall_forall in HF.
    specialize (HF piece Hp). rewrite Forall_forall in HF. exact (HF x Hx). }
  split; [|split; [|split]].
  - destruct (strip piece); [discriminate Hne | discriminate].
  - apply strip_idem.
  - intros H. apply (Hsep piece Hp), strip_incl, H.
  - intros H. apply Hlf, Hincl, strip_incl, H.
Qed.

Lemma tidyb_tidy (c : str) : tidyb c = true -> tidy c.
Proof.
  unfold tidyb, tidy. rewrite !andb_true_iff, !negb_true_iff.
  intros [[[H1 H2] H3] H4].
  split; [destruct c; [discriminate H1 | discriminate]|].
  split; [apply eqb_eq, H2|].
  split; apply mem_false; assumption.
Qed.

Lemma determine_spec_type_tidy (value : str) :
  tidy (determine_spec_type lower value)
  /\ determine_spec_type lower value <> py "NaN".
Proof.
  assert (H : In (determine_spec_type lower value)
                (map fst spec_labels ++ [py "Other"]))
    by apply first_match_range.
  assert (Hall : Forall (fun l => tidyb l = true /\ eqb l (py "NaN") = false)
                   (map fst spec_labels ++ [py "Other"]))
    by (vm_compute; repeat constructor).
  rewrite Forall_forall in Hall. destruct (Hall _ H) as [Ht Hn].
  split; [apply tidyb_tidy, Ht|].
  intros E. apply eqb_eq in E. congruence.
Qed.

End ParserMore.

(** X4. Every string that the parser returns in a block is tidy: the name
    and both elements of every specification are non-empty, stripped, and
    free of pipes and line feeds; every specification is a pair; and no name
    and no label is the placeholder 'NaN'. *)
Theorem parse_product_blocks_tidy (lower : str -> str) (content : str) :
  Forall (fun p =>
            tidy (name p) /\ name p <> py "NaN"
            /\ Forall (fun s => List.length s = 2%nat /\ Forall tidy s
                                /\ nth 0 s [] <> py "NaN")
                 (specifications p))
    (parse_product_blocks lower content).
Proof.
  set (N := fun n : str => tidy n /\ n <> py "NaN").
  set (S := fun s : spec => List.length s = 2%nat /\ Forall tidy s
                            /\ nth 0 s [] <> py "NaN").
  assert (Hinv : blocks_inv N S (fun _ => True)
                   (loop lower initial_state (lines_of content))).
  { apply (loop_invariant lower (blocks_inv N S (fun _ => True))
             (fun l => ~ In 10%N l)).
    - intros st l Hl. pose proof (cells_of_tidy l Hl) as Ht.
      apply step_blocks_inv.
      + intros c0 more _ Ec Hps. rewrite Ec in Ht. inversion Ht; subst.
        split; [assumption|]. simpl in Hps.
        apply andb_true_iff in Hps as [Hps _]. apply negb_true_iff in Hps.
        intros E. apply eqb_eq in E. congruence.
      + intros c0 c1 more _ Ec _. rewrite Ec in Ht.
        inversion Ht as [|? ? H0 Ht']; subst.
        inversion Ht' as [|? ? H1 _]; subst.
        destruct (eqb c0 (py "NaN")) eqn:E0.
        * destruct (determine_spec_type_tidy lower c1) as [Hl1 Hl2].
          split; [reflexivity|]. split; [|exact Hl2].
          constructor; [exact Hl1 | constructor; [exact H1 | constructor]].
        * split; [reflexivity|]. split.
          -- constructor; [exact H0 | constructor; [exact H1 | constructor]].
          -- intros E. apply eqb_eq in E. simpl in E. congruence.
      + auto.
    - apply lines_of_no_line_feed.
    - split; [constructor|]. split; [discriminate|]. split; constructor. }
  pose proof (emit_blocks_inv _ _ _ _
                (current_price (loop lower initial_state (lines_of content)))
                Hinv I) as H.
  eapply Forall_impl; [|exact H].
  intros p ((H1 & H2) & H3 & _). auto.
Qed.

(** X5. Every name that the parser returns is the first cell of a marker
    row of the text; every price is the first dollar cell of a row of the
    text without its dollar signs and commas, so that a price holds neither
    a dollar sign nor a comma. *)
Theorem parse_product_blocks_provenance (lower : str -> str) (content : str) :
  Forall (fun p =>
            (exists line,
                In line (lines_of content) /\ is_marker line = true
                /\ hd [] (cells_of line) = name p)
            /\ (price p = None
                \/ exists line cell,
                     In line (lines_of content)
                     /\ dollar_cell line = Some cell
                     /\ price p = Some (price_of_cell cell))
            /\ (forall x, price p = Some x ->
                          ~ In 36%N x /\ ~ In 44%N x))
    (parse_product_blocks lower content).
Proof.
  set (all := lines_of content).
  set (N := fun n : str =>
              exists line, In line all /\ is_marker line = true
                           /\ hd [] (cells_of line) = n).
  set (R := fun pr : option str =>
              pr = None
              \/ exists line cell, In line all /\ dollar_cell line = Some cell
                                   /\ pr = Some (price_of_cell cell)).
  assert (Hinv : blocks_inv N (fun _ => True) R
                   (loop lower initial_state all)).
  { apply (loop_invariant lower (blocks_inv N (fun _ => True) R)
             (fun l => In l all)).
    - intros st l Hl. apply step_blocks_inv.
      + intros c0 more Hsk Ec Hps. exists l. split; [exact Hl|].
        unfold is_marker. rewrite Hsk, Ec, Hps. split; reflexivity.
      + auto.
      + intros cur Hsk Hcur. rewrite update_price_eq.
        destruct (List.find _ (cells_of l)) as [cell|] eqn:Ef; [|exact Hcur].
        right. exists l, cell. split; [exact Hl|].
        unfold dollar_cell. rewrite Hsk. split; [exact Ef | reflexivity].
    - apply Forall_forall. auto.
    - split; [constructor|]. split; [discriminate|].
      split; [constructor | left; reflexivity]. }
  assert (Hfinal : R (current_price (loop lower initial_state all)))
    by apply Hinv.
  pose proof (emit_blocks_inv _ _ _ _ _ Hinv Hfinal) as H.
  eapply Forall_impl; [|exact H].
  intros p (H1 & _ & H3). split; [exact H1|]. split; [exact H3|].
  intros x Hx. destruct H3 as [H3|(line & cell & _ & _ & H3)]; [congruence|].
  rewrite H3 in Hx. injection Hx as <-. unfold price_of_cell.
  split; intros Hin; apply filter_In in Hin as [_ Hin]; discriminate Hin.
Qed.

Section ParserBlocks.

Variable lower : str -> str.

Lemma emit_length (st : state) (pr : option str) :
  (List.length (emit st pr) <= List.length (products st) + open_count st)%nat.
Proof.
  unfold emit, open_count.
  destruct (current_product st) as [p|]; [|lia].
  destruct (current_specs st); [lia|].
  destruct (nonempty p); [rewrite length_app; simpl|]; lia.
Qed.

Lemma step_count (st : state) (line : str) :
  (List.length (products (step lower st line)) + open_count (step lower st line)
   <= List.length (products st) + open_count st
      + (if is_marker line then 1 else 0))%nat.
Proof.
  unfold step, is_marker.
  destruct (skipped line); [simpl; lia|]. simpl negb. cbv iota.
  destruct (cells_of line) as [|c0 more]; [simpl; lia|].
  destruct (product_start (c0 :: more) line).
  - cbn [products current_product open_count andb].
    pose proof (emit_length st
                  (update_price (c0 :: more) (current_price st))).
    unfold open_count in *. cbn [current_product]. lia.
  - destruct (truthy (current_product st)); [destruct more|];
      unfold open_count; cbn [products current_product]; simpl; lia.
Qed.

Lemma loop_count (lines : list str) (st : state) :
  (List.length (products (loop lower st lines))
   + open_count (loop lower st lines)
   <= List.length (products st) + open_count st
      + List.length (List.filter is_marker lines))%nat.
Proof.
  revert st; induction lines as [|l lines IH]; intros st; [simpl; lia|].
  simpl loop. specialize (IH (step lower st l)).
  pose proof (step_count st l). simpl List.filter.
  destruct (is_marker l); simpl List.length; lia.
Qed.

(** A row that opens no product, read while a product is open: the
    specifications grow by at most the row's pair. *)
Lemma step_row (st : state) (line n : str) :
  current_product st = Some n -> n <> [] ->
  is_marker line = false ->
  products (step lower st line) = products st
  /\ current_product (step lower st line) = Some n
  /\ exists added,
       current_specs (step lower st line) = current_specs st ++ added
       /\ map (fun s => nth 1 s []) added =
          (if spec_row line then [nth 1 (cells_of line) []] else []).
Proof.
  intros Hn Hne Hm. unfold step, spec_row. rewrite Hm.
  unfold is_marker in Hm.
  destruct (skipped line).
  { repeat split; auto. exists []. rewrite app_nil_r. auto. }
  simpl in Hm. destruct (cells_of line) as [|c0 more].
  { repeat split; auto. exists []. rewrite app_nil_r. auto. }
  rewrite Hm. unfold truthy. rewrite Hn.
  destruct n as [|x n]; [contradiction|]. simpl nonempty. cbv iota.
  destruct more as [|c1 more]; cbn [products current_product current_specs].
  - repeat split; auto. exists []. rewrite app_nil_r. auto.
  - repeat split; auto. eexists. split; [reflexivity|].
    destruct (eqb c0 (py "NaN")); reflexivity.
Qed.

Lemma loop_rows (rows : list str) (st : state) (n : str) :
  current_product st = Some n -> n <> [] ->
  forallb (fun l => negb (is_marker l)) rows = true ->
  products (loop lower st rows) = products st
  /\ current_product (loop lower st rows) = Some n
  /\ exists added,
       current_specs (loop lower st rows) = current_specs st ++ added
       /\ map (fun s => nth 1 s []) added =
          map (fun l => nth 1 (cells_of l) []) (List.filter spec_row rows).
Proof.
  revert st; induction rows as [|l rows IH]; intros st Hn Hne Hrows.
  - repeat split; auto. exists []. rewrite app_nil_r. auto.
  - simpl in Hrows. apply andb_true_iff in Hrows as [Hl Hrows].
    apply negb_true_iff in Hl.
    destruct (step_row st l n Hn Hne Hl) as (P1 & P2 & a1 & P3 & P4).
    destruct (IH (step lower st l) P2 Hne Hrows) as (Q1 & Q2 & a2 & Q3 & Q4).
    simpl loop. rewrite Q1, Q2, P1. repeat split; auto.
    exists (a1 ++ a2). rewrite Q3, P3, <- app_assoc. split; [reflexivity|].
    rewrite map_app.
    transitivity
      ((if spec_row l then [nth 1 (cells_of l) []] else [])
       ++ map (fun r => nth 1 (cells_of r) []) (List.filter spec_row rows)).
    + f_equal; assumption.
    + simpl List.filter. destruct (spec_row l); reflexivity.
Qed.

(** A row without a dollar cell keeps the running price. *)
Lemma step_price_kept (st : state) (line : str) :
  dollar_cell line = None ->
  current_price (step lower st line) = current_price st.
Proof.
  unfold dollar_cell, step. destruct (skipped line); [reflexivity|].
  intros Hf. destruct (cells_of line) as [|c0 more] eqn:Ec; [reflexivity|].
  assert (E : update_price (c0 :: more) (current_price st) = current_price st)
    by (rewrite update_price_eq, Hf; reflexivity).
  destruct (product_start (c0 :: more) line); [exact E|].
  destruct (truthy (current_product st)); [destruct more|]; exact E.
Qed.

Lemma step_price_set (st : state) (line cell : str) :
  dollar_cell line = Some cell ->
  current_price (step lower st line) = Some (price_of_cell cell).
Proof.
  unfold dollar_cell, step. destruct (skipped line); [discriminate|].
  intros Hf. destruct (cells_of line) as [|c0 more] eqn:Ec; [discriminate Hf|].
  assert (E : update_price (c0 :: more) (current_price st)
              = Some (price_of_cell cell))
    by (rewrite update_price_eq, Hf; reflexivity).
  destruct (product_start (c0 :: more) line); [exact E|].
  destruct (truthy (current_product st)); [destruct more|]; exact E.
Qed.

Lemma loop_price_kept (rows : list str) (st : state) :
  Forall (fun l => dollar_cell l = None) rows ->
  current_price (loop lower st rows) = current_price st.
Proof.
  intros H; revert st; induction H as [|l rows Hl _ IH]; intros st;
    [reflexivity|].
  simpl loop. rewrite IH. apply step_price_kept, Hl.
Qed.

End ParserBlocks.

(** X6. The parser returns at most as many products as the text has marker
    rows; a text without marker row yields no product. *)
Theorem parse_product_blocks_count (lower : str -> str) (content : str) :
  (List.length (parse_product_blocks lower content)
   <= List.length (List.filter is_marker (lines_of content)))%nat
  /\ (List.filter is_marker (lines_of content) = [] ->
      parse_product_blocks lower content = []).
Proof.
  assert (H : (List.length (parse_product_blocks lower content)
               <= List.length (List.filter is_marker (lines_of content)))%nat).
  { unfold parse_product_blocks.
    pose proof (loop_count lower (lines_of content) initial_state) as H1.
    pose proof (emit_length
                  (loop lower initial_state (lines_of content))
                  (current_price
                     (loop lower initial_state (lines_of content)))) as H2.
    change (List.length (products initial_state)) with 0%nat in H1.
    change (open_count initial_state) with 0%nat in H1. lia. }
  split; [exact H|].
  intros E. rewrite E in H.
  destruct (parse_product_blocks lower content); [reflexivity|].
  simpl in H. lia.
Qed.

Lemma parse_product_blocks_count_witness :
  parse_product_blocks ascii_lower
    (py "| Item | Price |" ++ [10%N] ++ py "| NaN | 8GB RAM |" ++ [10%N]
     ++ py "| Memory | 16GB | $100 |") = [].
Proof.
  exact (proj2 (parse_product_blocks_count ascii_lower
                  (py "| Item | Price |" ++ [10%N] ++ py "| NaN | 8GB RAM |"
                   ++ [10%N] ++ py "| Memory | 16GB | $100 |")) eq_refl).
Defined.

Section ParserAscii.

Local Open Scope N_scope.

Lemma cells_of_nonempty (line c : str) : In c (cells_of line) -> c <> [].
Proof.
  unfold cells_of. intros H. apply filter_In in H as [_ H].
  destruct c; [discriminate H | discriminate].
Qed.

Lemma lines_of_ascii (content : str) :
  is_ascii content -> Forall is_ascii (lines_of content).
Proof.
  intros Ha. unfold lines_of. apply Forall_forall. intros l Hl.
  apply in_map_iff in Hl as (piece & <- & Hp).
  apply filter_In in Hp as [Hp _].
  pose proof (split_go_Forall (fun c => c < 128) 10 content []
                (Forall_nil _) Ha) as H.
  rewrite Forall_forall in H. apply strip_Forall, H, Hp.
Qed.

Lemma cells_of_ascii (line : str) :
  is_ascii line -> Forall is_ascii (cells_of line).
Proof.
  intros Ha. unfold cells_of. apply Forall_forall. intros c Hc.
  apply filter_In in Hc as [Hc _].
  apply in_map_iff in Hc as (piece & <- & Hp).
  pose proof (split_go_Forall (fun c => c < 128) 124 line []
                (Forall_nil _) Ha) as H.
  rewrite Forall_forall in H. apply strip_Forall, H, Hp.
Qed.

End ParserAscii.

(** X7. The block that the last marker row of a text opens: its name is the
    first cell of the marker row, its values are the second cells of the
    rows with at least two cells that follow, in order, and its price is the
    running price at the end of the text; it follows the products emitted up
    to the marker row, and is left out when no such row follows. *)
Theorem parse_product_blocks_last_block
  (lower : str -> str) (content : str) (pre : list str) (m : str)
  (rows : list str) :
  lines_of content = pre ++ m :: rows ->
  is_marker m = true ->
  forallb (fun l => negb (is_marker l)) rows = true ->
  let earlier := products (loop lower initial_state (pre ++ [m])) in
  let values :=
    map (fun l => nth 1 (cells_of l) []) (List.filter spec_row rows) in
  match values with
  | [] => parse_product_blocks lower content = earlier
  | _ :: _ =>
      exists p,
        parse_product_blocks lower content = earlier ++ [p]
        /\ name p = hd [] (cells_of m)
        /\ map (fun s => nth 1 s []) (specifications p) = values
        /\ price p =
           current_price (loop lower initial_state (lines_of content))
  end.
Proof.
  intros Hlines Hm Hrows earlier values.
  unfold parse_product_blocks. rewrite Hlines.
  replace (pre ++ m :: rows) with ((pre ++ [m]) ++ rows)
    by (rewrite <- app_assoc; reflexivity).
  rewrite loop_app. set (st1 := loop lower initial_state (pre ++ [m])).
  assert (E1 : st1 = step lower (loop lower initial_state pre) m)
    by (unfold st1; rewrite loop_app; reflexivity).
  destruct (step_marker lower (loop lower initial_state pre) m Hm)
    as (c0 & more & Ec & Es).
  assert (Hc0 : c0 <> [])
    by (apply (cells_of_nonempty m); rewrite Ec; left; reflexivity).
  assert (Hn : current_product st1 = Some c0) by (rewrite E1, Es; reflexivity).
  assert (Hs : current_specs st1 = []) by (rewrite E1, Es; reflexivity).
  destruct (loop_rows lower rows st1 c0 Hn Hc0 Hrows)
    as (P1 & P2 & added & P3 & P4).
  rewrite Hs in P3. simpl in P3. fold values in P4.
  unfold emit. rewrite P1, P2, P3. fold earlier.
  destruct c0 as [|x c0]; [contradiction|]. simpl nonempty. cbv iota.
  destruct values as [|v values'].
  - destruct added; [reflexivity | discriminate P4].
  - destruct added as [|a added]; [discriminate P4|].
    eexists. split; [reflexivity|]. cbn [name specifications price].
    rewrite Ec. repeat split; auto.
Qed.

Lemma parse_product_blocks_last_block_witness :
  let content :=
    py "| Model A Base Configuration | $900 |" ++ [10%N]
    ++ py "| NaN | 8GB RAM |" ++ [10%N]
    ++ py "| Colour | Black |" ++ [10%N]
    ++ py "| Total | | $1,250.00 |" in
  exists p,
    parse_product_blocks ascii_lower content = [p]
    /\ name p = py "Model A Base Configuration"
    /\ map (fun s => nth 1 s []) (specifications p)
       = [py "8GB RAM"; py "Black"; py "$1,250.00"]
    /\ price p = Some (py "1250.00").
Proof.
  intros content.
  exact (parse_product_blocks_last_block ascii_lower content []
           (py "| Model A Base Configuration | $900 |")
           [py "| NaN | 8GB RAM |"; py "| Colour | Black |";
            py "| Total | | $1,250.00 |"]
           eq_refl eq_refl eq_refl).
Defined.

(** X8. The running price after a run of rows is the price of the last row
    that has a dollar cell: that cell without its dollar signs and commas,
    whatever the state before. *)
Theorem current_price_is_last_dollar_row
  (lower : str -> str) (st : state) (pre : list str) (line cell : str)
  (post : list str) :
  dollar_cell line = Some cell ->
  Forall (fun l => dollar_cell l = None) post ->
  current_price (loop lower st (pre ++ line :: post))
  = Some (price_of_cell cell).
Proof.
  intros Hl Hpost. rewrite loop_app. simpl loop.
  rewrite (loop_price_kept lower post _ Hpost).
  apply step_price_set, Hl.
Qed.

Lemma current_price_is_last_dollar_row_witness :
  current_price
    (loop ascii_lower initial_state
       ([py "| $1 |"; py "| Model A Base Configuration | $900 |"]
        ++ py "| NaN | 16GB | $1,000 | $2,000 |"
        :: [py "| NaN | Windows 11 |"; py "$3,000"]))
  = Some (py "1000").
Proof.
  refine (current_price_is_last_dollar_row ascii_lower initial_state
            [py "| $1 |"; py "| Model A Base Configuration | $900 |"]
            (py "| NaN | 16GB | $1,000 | $2,000 |") (py "$1,000")
            [py "| NaN | Windows 11 |"; py "$3,000"] eq_refl _).
  repeat constructor.
Defined.

(** X9. On ASCII text the parser needs no more of [str.lower] than the
    lowering of the letters A-Z. *)
Theorem parse_product_blocks_ascii (lower : str -> str) (content : str) :
  lowers_ascii lower -> is_ascii content ->
  parse_product_blocks lower content
  = parse_product_blocks ascii_lower content.
Proof.
  intros Hlower Ha. apply parse_product_blocks_lower_ext.
  apply Forall_forall. intros c Hc.
  apply in_flat_map in Hc as (l & Hl & Hc).
  pose proof (lines_of_ascii content Ha) as HL.
  rewrite Forall_forall in HL.
  pose proof (cells_of_ascii l (HL l Hl)) as HC.
  rewrite Forall_forall in HC. apply Hlower, HC, Hc.
Qed.

Lemma parse_product_blocks_ascii_witness :
  let lower := fun s : str =>
    if forallb (fun c => (c <? 128)%N) s then ascii_lower s else [] in
  let content :=
    py "| Model A Base Configuration | $900 |" ++ [10%N]
    ++ py "| NaN | 8GB RAM |" in
  parse_product_blocks lower content
  = parse_product_blocks ascii_lower content.
Proof.
  intros lower content.
  refine (parse_product_blocks_ascii lower content _ _).
  - intros s Hs. unfold lower.
    replace (forallb (fun c => (c <? 128)%N) s) with true; [reflexivity|].
    symmetry. apply forallb_forall. intros c Hc. apply N.ltb_lt.
    unfold is_ascii in Hs. rewrite Forall_forall in Hs. apply Hs, Hc.
  - apply is_ascii_check. reflexivity.
Defined.

Section ParserGrowth.

Variable lower : str -> str.

(** The list of products is only appended to. *)
Lemma emit_grows (st : state) (pr : option str) :
  exists more, emit st pr = products st ++ more.
Proof.
  unfold emit.
  destruct (current_product st) as [p|];
    [|exists []; rewrite app_nil_r; reflexivity].
  destruct (current_specs st);
    [exists []; rewrite app_nil_r; reflexivity|].
  destruct (nonempty p);
    [eexists; reflexivity | exists []; rewrite app_nil_r; reflexivity].
Qed.

Lemma step_grows (st : state) (line : str) :
  exists more, products (step lower st line) = products st ++ more.
Proof.
  unfold step.
  destruct (skipped line); [exists []; rewrite app_nil_r; reflexivity|].
  destruct (cells_of line) as [|c0 more];
    [exists []; rewrite app_nil_r; reflexivity|].
  destruct (product_start (c0 :: more) line).
  - apply emit_grows.
  - destruct (truthy (current_product st)); [destruct more|];
      exists []; rewrite app_nil_r; reflexivity.
Qed.

Lemma loop_grows (lines : list str) (st : state) :
  exists more, products (loop lower st lines) = products st ++ more.
Proof.
  revert st; induction lines as [|l lines IH]; intros st.
  - exists []. rewrite app_nil_r. reflexivity.
  - destruct (step_grows st l) as (m1 & E1).
    destruct (IH (step lower st l)) as (m2 & E2).
    exists (m1 ++ m2). simpl loop. rewrite E2, E1, app_assoc. reflexivity.
Qed.

(** What was emitted after some of the rows is the beginning of the
    result. *)
Lemma parse_product_blocks_grows (content : str) (pre post : list str) :
  lines_of content = pre ++ post ->
  exists more,
    parse_product_blocks lower content
    = products (loop lower initial_state pre) ++ more.
Proof.
  intros Hlines. unfold parse_product_blocks. rewrite Hlines, loop_app.
  set (st := loop lower initial_state pre).
  destruct (loop_grows post st) as (m1 & E1).
  destruct (emit_grows (loop lower st post)
              (current_price (loop lower st post))) as (m2 & E2).
  exists (m1 ++ m2). rewrite E2, E1, app_assoc. reflexivity.
Qed.

End ParserGrowth.

(** C10. The price check of a row runs before its product-start check.  In
    every text in which a marker row [m] with a cell that starts with a
    dollar sign follows the rows of a product (a marker row [m0] and rows
    that open no product, at least one of them a specification row), the
    block that [parse_product_blocks] returns for that product, right after
    the products emitted up to [m0], has the name of [m0], the values of its
    own rows, and the price of the marker row [m]: the first dollar cell of
    [m] without dollar signs and commas, whatever prices its own rows
    held. *)
Theorem marker_price_goes_to_previous_block
  (lower : str -> str) (content : str) (pre : list str) (m0 : str)
  (rows : list str) (m cell : str) (post : list str) :
  lines_of content = pre ++ m0 :: rows ++ m :: post ->
  is_marker m0 = true ->
  forallb (fun l => negb (is_marker l)) rows = true ->
  List.filter spec_row rows <> [] ->
  is_marker m = true ->
  List.find (fun c => startswith c (py "$")) (cells_of m) = Some cell ->
  exists p rest,
    parse_product_blocks lower content
    = products (loop lower initial_state (pre ++ [m0])) ++ p :: rest
    /\ name p = hd [] (cells_of m0)
    /\ map (fun s => nth 1 s []) (specifications p)
       = map (fun l => nth 1 (cells_of l) []) (List.filter spec_row rows)
    /\ price p = Some (replace (py ",") [] (replace (py "$") [] cell)).
Proof.
  intros Hlines Hm0 Hrows Hspec Hm Hfind.
  set (st1 := loop lower initial_state (pre ++ [m0])).
  assert (E1 : st1 = step lower (loop lower initial_state pre) m0)
    by (unfold st1; rewrite loop_app; reflexivity).
  destruct (step_marker lower (loop lower initial_state pre) m0 Hm0)
    as (c0 & more & Ec & Es).
  assert (Hc0 : c0 <> [])
    by (apply (cells_of_nonempty m0); rewrite Ec; left; reflexivity).
  assert (Hn : current_product st1 = Some c0) by (rewrite E1, Es; reflexivity).
  assert (Hs : current_specs st1 = []) by (rewrite E1, Es; reflexivity).
  destruct (loop_rows lower rows st1 c0 Hn Hc0 Hrows)
    as (P1 & P2 & added & P3 & P4).
  rewrite Hs in P3. simpl in P3.
  assert (Hadded : current_specs (loop lower st1 rows) <> []).
  { rewrite P3. intros E. rewrite E in P4. simpl in P4.
    symmetry in P4. apply map_eq_nil in P4. contradiction. }
  destruct (step_marker_price lower (loop lower st1 rows) m cell c0
              Hm Hfind P2 Hc0 Hadded) as [Q1 _].
  destruct (parse_product_blocks_grows lower content
              ((pre ++ [m0]) ++ rows ++ [m]) post) as (rest & Er).
  { rewrite Hlines, <- !app_assoc. reflexivity. }
  rewrite (loop_app lower (pre ++ [m0])), (loop_app lower rows) in Er.
  fold st1 in Er.
  change (loop lower (loop lower st1 rows) [m])
    with (step lower (loop lower st1 rows) m) in Er.
  rewrite Q1, P1, <- app_assoc in Er.
  eexists. exists rest. split; [exact Er|].
  cbn [name specifications price]. rewrite Ec, P3.
  repeat split. exact P4.
Qed.

Lemma marker_price_goes_to_previous_block_witness :
  let content :=
    py "| Model A Base Configuration | $1,000 |" ++ [10%N]
    ++ py "| NaN | 8GB RAM | $1,050 |" ++ [10%N]
    ++ py "| Model B Base Configuration | $2,500 |" ++ [10%N]
    ++ py "| NaN | 16GB RAM |" in
  exists p rest,
    parse_product_blocks ascii_lower content = p :: rest
    /\ name p = py "Model A Base Configuration"
    /\ map (fun s => nth 1 s []) (specifications p) = [py "8GB RAM"]
    /\ price p = Some (py "2500").
Proof.
  intros content.
  refine (marker_price_goes_to_previous_block ascii_lower content []
            (py "| Model A Base Configuration | $1,000 |")
            [py "| NaN | 8GB RAM | $1,050 |"]
            (py "| Model B Base Configuration | $2,500 |") (py "$2,500")
            [py "| NaN | 16GB RAM |"]
            eq_refl eq_refl eq_refl _ eq_refl eq_refl).
  discriminate.
Defined.

(* ================================================================== *)
(** * More about the normalizer call *)
(* ================================================================== *)

Section ExtractionFacts.

Local Open Scope Z_scope.

Lemma find_absent (c : char) (s : str) : ~ In c s -> find c s = -1.
Proof.
  induction s as [|x s IH]; intros H; [reflexivity|].
  simpl. destruct (N.eqb_spec x c) as [->|Hne].
  - exfalso; apply H; left; reflexivity.
  - rewrite IH by (intro; apply H; right; assumption). reflexivity.
Qed.

Lemma find_first (c : char) (pre rest : str) :
  ~ In c pre -> find c (pre ++ c :: rest) = Z.of_nat (List.length pre).
Proof.
  induction pre as [|x pre IH]; intros H.
  - simpl. rewrite N.eqb_refl. reflexivity.
  - simpl app. simpl find. destruct (N.eqb_spec x c) as [->|Hne].
    + exfalso; apply H; left; reflexivity.
    + rewrite IH by (intro; apply H; right; assumption).
      destruct (Z.eqb_spec (Z.of_nat (List.length pre)) (-1)); [lia|].
      simpl List.length. lia.
Qed.

Lemma find_present (c : char) (s : str) : In c s -> 0 <= find c s.
Proof.
  induction s as [|x s IH]; intros H; [destruct H|].
  simpl. destruct (N.eqb_spec x c) as [->|Hne]; [lia|].
  destruct H as [H|H]; [congruence|]. specialize (IH H).
  destruct (Z.eqb_spec (find c s) (-1)); lia.
Qed.

Lemma rfind_last (c : char) (s post : str) :
  ~ In c post ->
  rfind c (s ++ c :: post) + 1 = Z.of_nat (List.length s) + 1.
Proof.
  intros H. unfold rfind.
  replace (rev (s ++ c :: post)) with (rev post ++ c :: rev s)
    by (rewrite rev_app_distr; simpl; rewrite <- app_assoc; reflexivity).
  rewrite find_first by (rewrite <- in_rev; exact H).
  rewrite length_rev, length_app. simpl List.length.
  destruct (Z.eqb_spec (Z.of_nat (List.length post)) (-1)); lia.
Qed.

Lemma rfind_absent (c : char) (s : str) : ~ In c s -> rfind c s + 1 = 0.
Proof.
  intros H. unfold rfind.
  rewrite find_absent by (rewrite <- in_rev; exact H). reflexivity.
Qed.

Lemma firstn_length_app (a b : str) : firstn (List.length a) (a ++ b) = a.
Proof. induction a as [|x a IH]; simpl; [destruct b|]; congruence. Qed.

Lemma skipn_length_app (a b : str) : skipn (List.length a) (a ++ b) = b.
Proof. induction a as [|x a IH]; simpl; auto. Qed.

(** The slice from the first opening brace to the last closing brace. *)
Lemma slice_braces (pre mid post : str) :
  ~ In 123%N pre -> ~ In 125%N post ->
  let text := pre ++ [123%N] ++ mid ++ [125%N] ++ post in
  find 123%N text <> -1
  /\ rfind 125%N text + 1 <> -1
  /\ slice text (find 123%N text) (rfind 125%N text + 1)
     = [123%N] ++ mid ++ [125%N].
Proof.
  intros Hpre Hpost text.
  assert (E1 : find 123%N text = Z.of_nat (List.length pre))
    by (apply find_first; exact Hpre).
  assert (E2 : rfind 125%N text + 1
               = Z.of_nat (List.length (pre ++ [123%N] ++ mid)) + 1).
  { unfold text.
    replace (pre ++ [123%N] ++ mid ++ [125%N] ++ post)
      with ((pre ++ [123%N] ++ mid) ++ 125%N :: post)
      by (rewrite <- !app_assoc; reflexivity).
    apply rfind_last; exact Hpost. }
  rewrite E1, E2. split; [lia|]. split; [lia|].
  unfold slice. rewrite Nat2Z.id. unfold text.
  rewrite skipn_length_app.
  replace (Z.to_nat (Z.of_nat (List.length (pre ++ [123%N] ++ mid)) + 1
                     - Z.of_nat (List.length pre)))
    with (List.length ([123%N] ++ mid ++ [125%N])).
  2:{ rewrite !length_app; simpl List.length. unfold char. lia. }
  replace ([123%N] ++ mid ++ [125%N] ++ post)
    with (([123%N] ++ mid ++ [125%N]) ++ post)
    by (rewrite <- !app_assoc; reflexivity).
  apply firstn_length_app.
Qed.

Variable prompt_of : str -> option str -> str -> str.
Variable ChatCompletion_create : str -> result pyval.
Variable json_loads : str -> result pyval.

(** The [try] body in terms of [reply_text]. *)
Lemma call_normalizer_reply (product_data : RawProductBlock)
  (response : pyval) :
  ChatCompletion_create
    (prompt_of (name product_data) (price product_data)
       (specs_text product_data)) = Ok response ->
  call_normalizer prompt_of ChatCompletion_create json_loads product_data =
  bind (reply_text response) (fun content =>
    match content with
    | PStr content =>
        if negb (find 123%N content =? -1)
           && negb (rfind 125%N content + 1 =? -1)
        then json_loads
               (slice content (find 123%N content)
                  (rfind 125%N content + 1))
        else Raise ValueError
    | _ => Raise AttributeError
    end).
Proof.
  intros H. unfold call_normalizer, reply_text. rewrite H. cbn [bind].
  destruct (getitem response _) as [choices|]; cbn [bind]; [|reflexivity].
  destruct (getindex choices 0) as [choice|]; cbn [bind]; [|reflexivity].
  destruct (getitem choice _) as [message|]; cbn [bind]; reflexivity.
Qed.

End ExtractionFacts.

(** X10. Text around the JSON object of a reply is ignored: when the reply
    is a string with an opening brace, no opening brace before it, a closing
    brace after it and no closing brace behind that one, [json.loads] gets
    exactly the text from the first to the second, and [process_with_gpt]
    returns its value as it is, or the fallback when it raises. *)
Theorem process_with_gpt_extracts_object
  (prompt_of : str -> option str -> str -> str)
  (ChatCompletion_create json_loads : str -> result pyval)
  (product_data : RawProductBlock) (response : pyval) (pre mid post : str) :
  ChatCompletion_create
    (prompt_of (name product_data) (price product_data)
       (specs_text product_data)) = Ok response ->
  reply_text response
    = Ok (PStr (pre ++ [123%N] ++ mid ++ [125%N] ++ post)) ->
  ~ In 123%N pre -> ~ In 125%N post ->
  process_with_gpt prompt_of ChatCompletion_create json_loads product_data =
  match json_loads ([123%N] ++ mid ++ [125%N]) with
  | Ok structured_data => structured_data
  | Raise _ => fallback product_data
  end.
Proof.
  intros Hcall Hreply Hpre Hpost. unfold process_with_gpt.
  rewrite (call_normalizer_reply _ _ _ _ _ Hcall), Hreply. cbn [bind].
  destruct (slice_braces pre mid post Hpre Hpost) as (H1 & H2 & H3).
  apply Z.eqb_neq in H1, H2. rewrite H1, H2, H3. reflexivity.
Qed.

Lemma process_with_gpt_extracts_object_witness :
  let product_data :=
    {| name := py "Model A"; price := None;
       specifications := [[py "Memory"; py "8GB"]] |} in
  let text := py "Here is the JSON: " ++ [123%N] ++ py "1" ++ [125%N]
               ++ py " Done." in
  let response :=
    PDict [(py "id", PStr (py "x"));
           (py "choices",
            PList [PDict [(py "message",
                           PDict [(py "role", PStr (py "assistant"));
                                  (py "content", PStr text)])]])] in
  let loads := fun t : str =>
    if eqb t ([123%N] ++ py "1" ++ [125%N])
    then Ok (PDict [(py "title", PStr (py "Model A"))])
    else @Raise pyval ValueError in
  process_with_gpt (fun _ _ _ => []) (fun _ => Ok response) loads product_data
  = PDict [(py "title", PStr (py "Model A"))].
Proof.
  intros product_data text response loads.
  refine (process_with_gpt_extracts_object (fun _ _ _ => [])
            (fun _ => Ok response) loads product_data response
            (py "Here is the JSON: ") (py "1") (py " Done.")
            eq_refl eq_refl _ _); apply mem_false; reflexivity.
Defined.

(** X11. A reply without opening brace gives the fallback and [json.loads]
    is not asked; a reply with an opening brace and no closing brace makes
    [json.loads] parse the empty string (the test on the end index never
    fails). *)
Theorem process_with_gpt_missing_brace
  (prompt_of : str -> option str -> str -> str)
  (ChatCompletion_create json_loads : str -> result pyval)
  (product_data : RawProductBlock) (response : pyval) (text : str) :
  ChatCompletion_create
    (prompt_of (name product_data) (price product_data)
       (specs_text product_data)) = Ok response ->
  reply_text response = Ok (PStr text) ->
  (~ In 123%N text ->
   process_with_gpt prompt_of ChatCompletion_create json_loads product_data
   = fallback product_data)
  /\ (In 123%N text -> ~ In 125%N text ->
      process_with_gpt prompt_of ChatCompletion_create json_loads product_data
      = match json_loads [] with
        | Ok structured_data => structured_data
        | Raise _ => fallback product_data
        end).
Proof.
  intros Hcall Hreply. unfold process_with_gpt.
  rewrite (call_normalizer_reply _ _ _ _ _ Hcall), Hreply. cbn [bind].
  split.
  - intros H. rewrite (find_absent _ _ H). reflexivity.
  - intros Hopen Hclose.
    pose proof (find_present _ _ Hopen) as Hf.
    rewrite (rfind_absent _ _ Hclose).
    destruct (Z.eqb_spec (find 123%N text) (-1)) as [E|_]; [lia|].
    cbn [negb andb Z.eqb]. unfold slice.
    replace (Z.to_nat (0 - find 123%N text)) with 0%nat by lia.
    reflexivity.
Qed.

Lemma process_with_gpt_missing_brace_witness :
  let product_data :=
    {| name := py "Model A"; price := None;
       specifications := [[py "Memory"; py "8GB"]] |} in
  let response :=
    PDict [(py "choices",
            PList [PDict [(py "message",
                           PDict [(py "content",
                                   PStr (py "Sorry, I cannot."))])]])] in
  process_with_gpt (fun _ _ _ => []) (fun _ => Ok response)
    (fun _ => Ok PNone) product_data
  = fallback product_data.
Proof.
  intros product_data response.
  refine (proj1 (process_with_gpt_missing_brace (fun _ _ _ => [])
                   (fun _ => Ok response) (fun _ => Ok PNone) product_data
                   response (py "Sorry, I cannot.") eq_refl eq_refl) _).
  apply mem_false; reflexivity.
Defined.

(** X12. A response of the service that holds no reply text (a key or the
    first choice is missing, or the content is no string) gives the
    fallback. *)
Theorem process_with_gpt_malformed_response
  (prompt_of : str -> option str -> str -> str)
  (ChatCompletion_create json_loads : str -> result pyval)
  (product_data : RawProductBlock) (response : pyval) :
  ChatCompletion_create
    (prompt_of (name product_data) (price product_data)
       (specs_text product_data)) = Ok response ->
  (forall text, reply_text response <> Ok (PStr text)) ->
  process_with_gpt prompt_of ChatCompletion_create json_loads product_data
  = fallback product_data.
Proof.
  intros Hcall Hnone. unfold process_with_gpt.
  rewrite (call_normalizer_reply _ _ _ _ _ Hcall).
  destruct (reply_text response) as [content|e] eqn:E; [|reflexivity].
  cbn [bind]. destruct content; try reflexivity.
  exfalso. exact (Hnone s eq_refl).
Qed.

Lemma process_with_gpt_malformed_response_witness :
  let product_data :=
    {| name := py "Model A"; price := Some (py "900");
       specifications := [[py "Memory"; py "8GB"]] |} in
  let response := PDict [(py "choices", PList [])] in
  process_with_gpt (fun _ _ _ => []) (fun _ => Ok response)
    (fun _ => Ok PNone) product_data
  = fallback product_data.
Proof.
  intros product_data response.
  refine (process_with_gpt_malformed_response (fun _ _ _ => [])
            (fun _ => Ok response) (fun _ => Ok PNone) product_data
            response eq_refl _).
  intros text H. discriminate H.
Defined.

(* ================================================================== *)
(** * Properties of the whole table *)
(* ================================================================== *)

Section RenderFacts.

Local Open Scope Z_scope.

Variable w : Q.
Variable get_string_width : str -> Q.
Variable fl : Q -> Q.
Variable str_of : pyval -> str.
Variable float_truth : str -> bool.

Let rows_of := main_rows_of w get_string_width fl str_of float_truth.

Lemma alternating_length (dark : bool) (n : nat) :
  List.length (alternating dark n) = n.
Proof. revert dark; induction n; intros dark; simpl; congruence. Qed.

(** The shades of the rows that are drawn alternate. *)
Lemma main_rows_of_alternate (specs : list pyval) (dark : bool)
  (rows : list LayoutRow) :
  rows_of dark specs = Ok rows ->
  map fill_is_dark rows = alternating dark (List.length rows).
Proof.
  revert dark rows; induction specs as [|e specs IH]; intros dark rows H.
  - injection H as <-. reflexivity.
  - simpl in H. destruct (get e (py "value")) as [v|]; [|discriminate H].
    cbn [bind] in H. destruct (truth float_truth v); cbn [negb] in H;
      [|apply IH, H].
    destruct (current_row_height _ _ _ _) as [h|]; [|discriminate H].
    cbn [bind] in H. destruct (getitem e _) as [l|]; [|discriminate H].
    cbn [bind] in H.
    destruct (rows_of (negb dark) specs) as [rows'|] eqn:E; [|discriminate H].
    cbn [bind] in H. injection H as <-. simpl. rewrite (IH _ _ E).
    reflexivity.
Qed.

Lemma upgrade_rows_of_alternate (upgrades : list pyval) (dark : bool)
  (rows : list LayoutRow) :
  upgrade_rows_of str_of float_truth dark upgrades = Ok rows ->
  map fill_is_dark rows = alternating dark (List.length rows).
Proof.
  revert dark rows; induction upgrades as [|u upgrades IH]; intros dark rows H.
  - injection H as <-. reflexivity.
  - simpl in H. destruct (getitem u (py "value")) as [v|]; [|discriminate H].
    cbn [bind] in H. destruct (get u (py "price")) as [p|]; [|discriminate H].
    cbn [bind] in H. destruct (getitem u (py "label")) as [l|];
      [|discriminate H].
    cbn [bind] in H.
    destruct (upgrade_rows_of str_of float_truth (negb dark) upgrades)
      as [rows'|] eqn:E; [|discriminate H].
    cbn [bind] in H. injection H as <-. simpl. rewrite (IH _ _ E).
    reflexivity.
Qed.

Lemma fallback_entry_value (s : spec) :
  get (fallback_entry s) (py "value") = Ok (PStr (nth 1 s [])).
Proof. reflexivity. Qed.

Lemma fallback_entry_label (s : spec) :
  getitem (fallback_entry s) (py "label") = Ok (PStr (nth 0 s [])).
Proof. reflexivity. Qed.

Hypothesis value_width_nonzero : ~ (value_width w fl == 0)%Q.

(** The rows of the entries that the fallback builds. *)
Lemma main_rows_of_fallback (specs : list spec) (dark : bool) :
  Forall drawable specs ->
  exists rows,
    rows_of dark (map fallback_entry specs) = Ok rows
    /\ map label_text rows
       = map (fun s => clean_text_for_pdf (nth 0 s [])) specs
    /\ map value_text rows
       = map (fun s => clean_text_for_pdf (nth 1 s [])) specs.
Proof.
  intros H; revert dark; induction H as [|s specs [Hlen Hv] _ IH]; intros dark.
  - exists []. repeat split.
  - destruct (IH (negb dark)) as (rows & E & Hl & Hval).
    unfold rows_of in *. cbn [map main_rows_of].
    rewrite fallback_entry_value. cbn [bind truth].
    destruct (nth 1 s []) as [|c v] eqn:En; [contradiction|].
    cbn [nonempty negb py_str].
    rewrite (current_row_height_ok w get_string_width fl
               value_width_nonzero). cbn [bind].
    rewrite fallback_entry_label. cbn [bind py_str]. rewrite E. cbn [bind].
    eexists. split; [reflexivity|]. cbn [map label_text value_text].
    rewrite Hl, Hval. split; [reflexivity|].
    f_equal. f_equal. symmetry. exact En.
Qed.

End RenderFacts.

Section FallbackFacts.

Lemma fallback_title (pd : RawProductBlock) :
  getitem (fallback pd) (py "title") = Ok (PStr (name pd)).
Proof. reflexivity. Qed.

Lemma fallback_price (pd : RawProductBlock) :
  get (fallback pd) (py "price") = Ok (price_value (price pd)).
Proof. reflexivity. Qed.

Lemma fallback_main_specs (pd : RawProductBlock) :
  getitem (fallback pd) (py "main_specs")
  = Ok (PList (map fallback_entry
                 (List.filter is_pair (specifications pd)))).
Proof. reflexivity. Qed.

Lemma fallback_upgrade_options (pd : RawProductBlock) :
  get (fallback pd) (py "upgrade_options") = Ok (PList []).
Proof. reflexivity. Qed.

Lemma drawable_pairs (specs : list spec) :
  Forall drawable specs -> pairs_only specs.
Proof. apply Forall_impl. intros s [H _]; exact H. Qed.


End FallbackFacts.



(** X13. The fallback record of a product whose specifications are pairs
    with a non-empty value is drawn without error on a page whose value
    column has a width: the title is the sanitized name, the price line, a
    dollar sign and the sanitized price, is there exactly when the price is
    a non-empty string other than 'None', there is one row per
    specification, with the sanitized category and value, and no upgrade
    section. *)
Theorem create_specification_table_fallback
  (w : Q) (get_string_width : str -> Q) (fl : Q -> Q)
  (str_of : pyval -> str) (float_truth : str -> bool)
  (product_data : RawProductBlock) :
  ~ (value_width w fl == 0)%Q ->
  Forall drawable (specifications product_data) ->
  exists t,
    create_specification_table w get_string_width fl str_of float_truth
      (fallback product_data) = Ok t
    /\ title_text t = clean_text_for_pdf (name product_data)
    /\ price_text t =
       match price product_data with
       | Some p =>
           if nonempty p && negb (eqb p (py "None"))
           then Some (py "$" ++ clean_text_for_pdf p) else None
       | None => None
       end
    /\ map label_text (main_rows t)
       = map (fun s => clean_text_for_pdf (nth 0 s []))
           (specifications product_data)
    /\ map value_text (main_rows t)
       = map (fun s => clean_text_for_pdf (nth 1 s []))
           (specifications product_data)
    /\ upgrade_rows t = None.
Proof.
  intros Hw Hd.
  destruct (main_rows_of_fallback w get_string_width fl str_of float_truth
              Hw (specifications product_data) true Hd)
    as (rows & Er & Hl & Hv).
  unfold create_specification_table, heading.
  rewrite fallback_title. cbn [bind clean_value].
  rewrite fallback_price. cbn [bind].
  rewrite fallback_main_specs, (filter_is_pair _ (drawable_pairs _ Hd)).
  cbn [bind iterate]. rewrite Er. cbn [bind].
  rewrite fallback_upgrade_options. cbn [bind truth].
  eexists. split; [reflexivity|]. cbn [title_text price_text main_rows
                                        upgrade_rows fst snd].
  repeat split; auto.
  destruct (price product_data) as [[|c p]|]; cbn; try reflexivity.
  rewrite orb_false_r. reflexivity.
Qed.

Lemma create_specification_table_fallback_witness :
  let width := fun s : str => (inject_Z (Z.of_nat (List.length s)) * 2)%Q in
  let product_data :=
    {| name := py "Model A Base Configuration";
       price := Some (py "1000");
       specifications := [ [py "Memory"; py "8GB RAM"];
                           [py "Other"; py "$1,000"] ] |} in
  exists t,
    create_specification_table 210 width (fun x => x) (fun _ => [])
      (fun _ => true) (fallback product_data) = Ok t
    /\ price_text t = Some (py "$1000")
    /\ map value_text (main_rows t) = [py "8GB RAM"; py "$1,000"].
Proof.
  intros width product_data.
  assert (Hw : ~ (value_width 210 (fun x => x) == 0)%Q)
    by (intro H; vm_compute in H; discriminate H).
  assert (Hd : Forall drawable (specifications product_data))
    by (repeat constructor; discriminate).
  destruct (create_specification_table_fallback 210 width (fun x => x)
              (fun _ => []) (fun _ => true) product_data Hw Hd)
    as (t & E & _ & Hp & _ & Hv & _).
  exists t. split; [exact E|]. split; [exact Hp | exact Hv].
Defined.

(** X14. Entries of [main_specs] whose value is missing or false leave no
    trace: the rows, their heights and their shades are those of the list
    without these entries. *)
Theorem main_rows_of_passed_over
  (w : Q) (get_string_width : str -> Q) (fl : Q -> Q)
  (str_of : pyval -> str) (float_truth : str -> bool)
  (specs : list pyval) (dark : bool) :
  main_rows_of w get_string_width fl str_of float_truth dark
    (List.filter (fun e => negb (passed_over float_truth e)) specs)
  = main_rows_of w get_string_width fl str_of float_truth dark specs.
Proof.
  revert dark; induction specs as [|e specs IH]; intros dark; [reflexivity|].
  simpl List.filter. unfold passed_over at 1.
  destruct (get e (py "value")) as [v|ex] eqn:Eg.
  - destruct (truth float_truth v) eqn:Et; cbn [negb].
    + simpl. rewrite Eg. cbn [bind]. rewrite Et. cbn [negb].
      destruct (current_row_height _ _ _ _); cbn [bind]; [|reflexivity].
      destruct (getitem e _); cbn [bind]; [|reflexivity].
      rewrite IH. reflexivity.
    + simpl. rewrite Eg. cbn [bind]. rewrite Et. cbn [negb]. apply IH.
  - cbn [negb]. simpl. rewrite Eg. reflexivity.
Qed.


Section TableFacts.

Variable w : Q.
Variable get_string_width : str -> Q.
Variable fl : Q -> Q.
Variable str_of : pyval -> str.
Variable float_truth : str -> bool.

(** What a table that was drawn went through. *)
Lemma create_specification_table_ok (sd : pyval) (t : Table) :
  create_specification_table w get_string_width fl str_of float_truth sd
    = Ok t ->
  exists head specs l rows,
    heading str_of float_truth sd = Ok head
    /\ getitem sd (py "main_specs") = Ok specs
    /\ iterate specs = Ok l
    /\ main_rows_of w get_string_width fl str_of float_truth true l = Ok rows
    /\ title_text t = fst head /\ price_text t = snd head
    /\ main_rows t = rows
    /\ (upgrade_rows t = None
        \/ exists ups ul urows,
             get sd (py "upgrade_options") = Ok ups
             /\ iterate ups = Ok ul
             /\ upgrade_rows_of str_of float_truth true ul = Ok urows
             /\ upgrade_rows t = Some urows).
Proof.
  unfold create_specification_table. intros H.
  destruct (heading str_of float_truth sd) as [head|] eqn:E1;
    [|discriminate H].
  cbn [bind] in H.
  destruct (getitem sd (py "main_specs")) as [specs|] eqn:E2;
    [|discriminate H].
  cbn [bind] in H.
  destruct (iterate specs) as [l|] eqn:E3; [|discriminate H].
  cbn [bind] in H.
  destruct (main_rows_of _ _ _ _ _ true l) as [rows|] eqn:E4;
    [|discriminate H].
  cbn [bind] in H.
  destruct (get sd (py "upgrade_options")) as [ups|] eqn:E5;
    [|discriminate H].
  cbn [bind] in H. exists head, specs, l, rows.
  destruct (truth float_truth ups).
  - destruct (iterate ups) as [ul|] eqn:E6; [|discriminate H].
    cbn [bind] in H.
    destruct (upgrade_rows_of _ _ true ul) as [urows|] eqn:E7;
      [|discriminate H].
    cbn [bind] in H. injection H as <-.
    repeat (split; [reflexivity || assumption|]).
    right. exists ups, ul, urows. auto.
  - injection H as <-. repeat (split; [reflexivity || assumption|]).
    left. reflexivity.
Qed.

Lemma heading_ok (sd : pyval) (head : str * option str) :
  heading str_of float_truth sd = Ok head ->
  exists d title,
    sd = PDict d /\ dict_get (py "title") d = Some (PStr title)
    /\ fst head = clean_text_for_pdf title.
Proof.
  unfold heading. intros H.
  destruct sd; try discriminate H. unfold getitem in H.
  destruct (dict_get (py "title") d) as [title|] eqn:E; [|discriminate H].
  cbn [bind] in H. destruct title; try discriminate H.
  cbn [bind clean_value] in H.
  destruct (get (PDict d) (py "price")); [|discriminate H].
  cbn [bind] in H. injection H as <-. exists d, s.
  split; [reflexivity|]. split; [exact E | reflexivity].
Qed.

End TableFacts.

(** X15. A table is drawn only for a dict that has a string under 'title'
    and a value under 'main_specs' that a loop can run over; the title that
    is drawn is the sanitized string.  Any other value raises. *)
Theorem create_specification_table_requires
  (w : Q) (get_string_width : str -> Q) (fl : Q -> Q)
  (str_of : pyval -> str) (float_truth : str -> bool)
  (structured_data : pyval) (t : Table) :
  create_specification_table w get_string_width fl str_of float_truth
    structured_data = Ok t ->
  exists d title specs entries,
    structured_data = PDict d
    /\ dict_get (py "title") d = Some (PStr title)
    /\ title_text t = clean_text_for_pdf title
    /\ dict_get (py "main_specs") d = Some specs
    /\ iterate specs = Ok entries.
Proof.
  intros H.
  destruct (create_specification_table_ok _ _ _ _ _ _ _ H)
    as (head & specs & l & rows & Hh & Hs & Hl & _ & Ht & _).
  destruct (heading_ok _ _ _ _ Hh) as (d & title & -> & Hd & Hf).
  exists d, title, specs, l. repeat split; auto; [congruence|].
  unfold getitem in Hs.
  destruct (dict_get (py "main_specs") d); [congruence | discriminate Hs].
Qed.

Lemma create_specification_table_requires_witness :
  let sd := PDict [ (py "title", PStr (py "Model A"));
                    (py "main_specs", PList []) ] in
  exists d title specs entries,
    sd = PDict d
    /\ dict_get (py "title") d = Some (PStr title)
    /\ py "Model A" = clean_text_for_pdf title
    /\ dict_get (py "main_specs") d = Some specs
    /\ iterate specs = Ok entries.
Proof.
  intros sd.
  exact (create_specification_table_requires 210 (fun _ => 0%Q) (fun x => x)
           (fun _ => []) (fun _ => true) sd
           {| title_text := py "Model A"; price_text := None;
              main_rows := []; upgrade_rows := None |} eq_refl).
Defined.

(** X16. In a table that was drawn the shades alternate from row to row,
    starting dark, in the main rows and again in the upgrade rows. *)
Theorem create_specification_table_shades
  (w : Q) (get_string_width : str -> Q) (fl : Q -> Q)
  (str_of : pyval -> str) (float_truth : str -> bool)
  (structured_data : pyval) (t : Table) :
  create_specification_table w get_string_width fl str_of float_truth
    structured_data = Ok t ->
  map fill_is_dark (main_rows t)
  = alternating true (List.length (main_rows t))
  /\ (forall urows,
        upgrade_rows t = Some urows ->
        map fill_is_dark urows = alternating true (List.length urows)).
Proof.
  intros H.
  destruct (create_specification_table_ok _ _ _ _ _ _ _ H)
    as (head & specs & l & rows & _ & _ & _ & Hr & _ & _ & Hm & Hu).
  split.
  - rewrite Hm. eapply main_rows_of_alternate, Hr.
  - intros urows E.
    destruct Hu as [Hu|(ups & ul & urows' & _ & _ & Hur & Hu)];
      [congruence|].
    rewrite Hu in E. injection E as <-.
    eapply upgrade_rows_of_alternate, Hur.
Qed.

Lemma create_specification_table_shades_witness :
  let entry := fun l v : str =>
    PDict [(py "label", PStr l); (py "value", PStr v)] in
  let sd := PDict [ (py "title", PStr (py "Model A"));
                    (py "main_specs",
                     PList [entry (py "Memory") (py "8GB");
                            entry (py "Note") [];
                            entry (py "Storage") (py "1TB");
                            entry (py "Display") (py "15 in")]);
                    (py "upgrade_options",
                     PList [entry (py "RAM") (py "16GB")]) ] in
  exists t,
    create_specification_table 210 (fun _ => 0%Q) (fun x => x)
      (fun _ => []) (fun _ => true) sd = Ok t
    /\ map fill_is_dark (main_rows t) = [true; false; true].
Proof.
  intros entry sd. eexists. split; [reflexivity|].
  exact (proj1 (create_specification_table_shades 210 (fun _ => 0%Q)
                  (fun x => x) (fun _ => []) (fun _ => true) sd _ eq_refl)).
Defined.

(* ================================================================== *)
(** * The heights of the rows that are drawn *)
(* ================================================================== *)

Section RowHeightFacts.

Local Open Scope Z_scope.

Variable w : Q.
Variable get_string_width : str -> Q.
Variable fl : Q -> Q.
Variable str_of : pyval -> str.
Variable float_truth : str -> bool.

(** A height that was computed is the base unit times the larger of the two
    line counts; none is computed when the value column has no width. *)
Lemma current_row_height_inv (v : str) (h : Z) :
  current_row_height w get_string_width fl v = Ok h ->
  ~ (value_width w fl == 0)%Q
  /\ h = row_height
         * Z.max (Z.of_nat (List.length (split 10%N v)))
             (Z.max 1
                (Qfloor (fl (get_string_width v / value_width w fl)%Q) + 1)).
Proof.
  unfold current_row_height, total_lines, wrapped_lines, width_ratio.
  destruct (Qeq_bool (value_width w fl) 0) eqn:E; [discriminate|].
  cbn [bind]. intros H. injection H as <-. split.
  - intros Hz. apply Qeq_bool_iff in Hz. congruence.
  - rewrite clamp_int_floor. reflexivity.
Qed.

Lemma current_row_height_zero_width (v : str) :
  (value_width w fl == 0)%Q ->
  current_row_height w get_string_width fl v = Raise ZeroDivisionError.
Proof.
  intros Hz. apply Qeq_bool_iff in Hz.
  unfold current_row_height, total_lines, wrapped_lines, width_ratio.
  rewrite Hz. reflexivity.
Qed.

(** The rows of the main loop, value by value. *)
Lemma main_rows_of_heights (specs : list pyval) (dark : bool)
  (rows : list LayoutRow) :
  main_rows_of w get_string_width fl str_of float_truth dark specs = Ok rows ->
  map (fun r => (value_text r, height r)) rows
  = map (fun value =>
           (clean_text_for_pdf value,
            row_height
            * Z.max (Z.of_nat (List.length (split 10%N value)))
                (Z.max 1
                   (Qfloor (fl (get_string_width value / value_width w fl)%Q)
                    + 1))))
      (drawn_values str_of float_truth specs).
Proof.
  revert dark rows; induction specs as [|e specs IH]; intros dark rows H.
  - injection H as <-. reflexivity.
  - unfold drawn_values. cbn [flat_map]. fold (drawn_values str_of float_truth specs).
    cbn [main_rows_of] in H.
    destruct (get e (py "value")) as [v|]; [|discriminate H].
    cbn [bind] in H. destruct (truth float_truth v); cbn [negb] in H.
    + destruct (current_row_height w get_string_width fl (py_str str_of v))
        as [h|] eqn:Eh; [|discriminate H].
      cbn [bind] in H. destruct (getitem e (py "label")) as [l|];
        [|discriminate H].
      cbn [bind] in H.
      destruct (main_rows_of w get_string_width fl str_of float_truth
                  (negb dark) specs) as [rows'|] eqn:E; [|discriminate H].
      cbn [bind] in H. injection H as <-.
      destruct (current_row_height_inv _ _ Eh) as [_ ->].
      cbn [map app value_text height]. rewrite (IH _ _ E). reflexivity.
    + cbn [app]. apply (IH _ _ H).
Qed.

(** Without a width of the value column the first entry that is not passed
    over ends the loop. *)
Lemma main_rows_of_no_width (specs : list pyval) (dark : bool) :
  (value_width w fl == 0)%Q ->
  main_rows_of w get_string_width fl str_of float_truth dark specs
  = match List.find (fun e => negb (passed_over float_truth e)) specs with
    | None => Ok []
    | Some e =>
        match get e (py "value") with
        | Ok _ => Raise ZeroDivisionError
        | Raise ex => Raise ex
        end
    end.
Proof.
  intros Hz. induction specs as [|e specs IH]; [reflexivity|].
  cbn [main_rows_of List.find]. unfold passed_over at 1.
  destruct (get e (py "value")) as [v|ex] eqn:Eg; cbn [bind negb].
  - destruct (truth float_truth v); cbn [negb].
    + rewrite Eg, (current_row_height_zero_width _ Hz). reflexivity.
    + exact IH.
  - rewrite Eg. reflexivity.
Qed.

(** [max(row_height, row_height * lines)] is [row_height * lines]: a text
    has at least one line. *)
Lemma upgrade_height (text : str) :
  Z.max row_height (row_height * value_lines text)
  = row_height * (Z.of_nat (count_occ N.eq_dec text 10%N) + 1).
Proof. rewrite value_lines_breaks. unfold row_height. lia. Qed.

(** The rows of the upgrade loop, entry by entry. *)
Lemma upgrade_rows_of_texts (upgrades : list pyval) (dark : bool)
  (rows : list LayoutRow) :
  upgrade_rows_of str_of float_truth dark upgrades = Ok rows ->
  map (fun r => (value_text r, height r)) rows
  = map (fun u =>
           (clean_text_for_pdf (upgrade_text_of str_of float_truth u),
            row_height
            * (Z.of_nat
                 (count_occ N.eq_dec (upgrade_text_of str_of float_truth u)
                    10%N) + 1)))
      upgrades.
Proof.
  revert dark rows; induction upgrades as [|u upgrades IH];
    intros dark rows H.
  - injection H as <-. reflexivity.
  - cbn [upgrade_rows_of] in H. cbn [map]. unfold upgrade_text_of at 1 2.
    destruct (getitem u (py "value")) as [v|]; [|discriminate H].
    cbn [bind] in H. destruct (get u (py "price")) as [p|]; [|discriminate H].
    cbn [bind] in H. destruct (getitem u (py "label")) as [l|];
      [|discriminate H].
    cbn [bind] in H.
    destruct (upgrade_rows_of str_of float_truth (negb dark) upgrades)
      as [rows'|] eqn:E; [|discriminate H].
    cbn [bind] in H. injection H as <-.
    cbn [map value_text height]. rewrite (IH _ _ E).
    f_equal. f_equal. apply upgrade_height.
Qed.

End RowHeightFacts.

(** C6. The height of every main-specification row is the base unit times
    the larger of two line counts of the value it shows: the number of
    pieces of the value split at line breaks, and the floor of the quotient
    of the rendered width and the width of the value column plus one, at
    least 1.  This holds for the rows of every run of the main loop and so
    for the main rows of every table that [create_specification_table]
    draws: they are the rows of the entries of [main_specs] whose value is
    true, in order.  A value with 3 wrapped lines and 1 line break has
    3 lines in total and a row of height 24. *)
Theorem main_spec_row_height_formula
  (w : Q) (get_string_width : str -> Q) (fl : Q -> Q)
  (str_of : pyval -> str) (float_truth : str -> bool) :
  (forall is_dark_row entries rows,
      main_rows_of w get_string_width fl str_of float_truth is_dark_row
        entries = Ok rows ->
      map (fun r => (value_text r, height r)) rows
      = map (fun value =>
               (clean_text_for_pdf value,
                (row_height
                 * Z.max (Z.of_nat (List.length (split 10%N value)))
                     (Z.max 1
                        (Qfloor
                           (fl (get_string_width value
                                / value_width w fl)%Q) + 1)))%Z))
          (drawn_values str_of float_truth entries))
  /\ (forall structured_data specs entries t,
        getitem structured_data (py "main_specs") = Ok specs ->
        iterate specs = Ok entries ->
        create_specification_table w get_string_width fl str_of float_truth
          structured_data = Ok t ->
        map (fun r => (value_text r, height r)) (main_rows t)
        = map (fun value =>
                 (clean_text_for_pdf value,
                  (row_height
                   * Z.max (Z.of_nat (List.length (split 10%N value)))
                       (Z.max 1
                          (Qfloor
                             (fl (get_string_width value
                                  / value_width w fl)%Q) + 1)))%Z))
            (drawn_values str_of float_truth entries))
  /\ (forall value,
        wrapped_lines w get_string_width fl value = Ok 3%Z ->
        count_occ N.eq_dec value 10%N = 1%nat ->
        total_lines w get_string_width fl value = Ok 3%Z
        /\ current_row_height w get_string_width fl value = Ok 24%Z).
Proof.
  split; [|split].
  - intros dark entries rows H. eapply main_rows_of_heights, H.
  - intros sd specs entries t Hs He H.
    destruct (create_specification_table_ok _ _ _ _ _ _ _ H)
      as (head & specs' & l & rows & _ & Hs' & Hl & Hr & _ & _ & Hm & _).
    rewrite Hs in Hs'. injection Hs' as <-.
    rewrite He in Hl. injection Hl as <-.
    rewrite Hm. eapply main_rows_of_heights, Hr.
  - intros value Hwr Hb.
    unfold current_row_height, total_lines. rewrite Hwr. cbn [bind].
    rewrite value_lines_breaks, Hb. split; reflexivity.
Qed.

Lemma main_spec_row_height_formula_witness :
  let width := fun s : str => (inject_Z (Z.of_nat (List.length s)) * 2)%Q in
  let entry := fun l v : str =>
    PDict [(py "label", PStr l); (py "value", PStr v)] in
  let notes := repeat 97%N 130 ++ [10%N] ++ py "b" in
  let sd := PDict [ (py "title", PStr (py "Model A"));
                    (py "main_specs",
                     PList [entry (py "Memory") (py "8GB");
                            entry (py "Empty") [];
                            entry (py "Notes") notes]) ] in
  exists t,
    create_specification_table 210 width (fun x => x) (fun _ => [])
      (fun _ => true) sd = Ok t
    /\ map (fun r => (value_text r, height r)) (main_rows t)
       = [ (py "8GB", 8%Z); (repeat 97%N 130 ++ py " b", 24%Z) ].
Proof.
  intros width entry notes sd. eexists. split; [vm_compute; reflexivity|].
  exact (proj1 (proj2 (main_spec_row_height_formula 210 width
                         (fun x => x) (fun _ => []) (fun _ => true)))
           sd _ _ _ eq_refl eq_refl eq_refl).
Defined.

(** X18. On a page whose value column has no width the main loop draws no
    row: the first entry of [main_specs] that is not passed over ends it,
    with [ZeroDivisionError] when the entry is a dict, whose value is then
    true, and with the exception of [spec.get] otherwise; when every entry
    is passed over there is no row and no exception. *)
Theorem main_rows_of_zero_width
  (w : Q) (get_string_width : str -> Q) (fl : Q -> Q)
  (str_of : pyval -> str) (float_truth : str -> bool)
  (specs : list pyval) (is_dark_row : bool) :
  (value_width w fl == 0)%Q ->
  main_rows_of w get_string_width fl str_of float_truth is_dark_row specs
  = match List.find (fun e => negb (passed_over float_truth e)) specs with
    | None => Ok []
    | Some e =>
        match get e (py "value") with
        | Ok _ => Raise ZeroDivisionError
        | Raise ex => Raise ex
        end
    end.
Proof. apply main_rows_of_no_width. Qed.

Lemma main_rows_of_zero_width_witness :
  let entry := fun l v : str =>
    PDict [(py "label", PStr l); (py "value", PStr v)] in
  main_rows_of 40 (fun _ => 1%Q) (fun x => x) (fun _ => []) (fun _ => true)
    true [entry (py "Empty") []; entry (py "Memory") (py "8GB")]
  = Raise ZeroDivisionError.
Proof.
  intros entry.
  refine (main_rows_of_zero_width 40 (fun _ => 1%Q) (fun x => x)
            (fun _ => []) (fun _ => true)
            [entry (py "Empty") []; entry (py "Memory") (py "8GB")] true _).
  reflexivity.
Defined.

(** X20. Every row of the upgrade loop shows the sanitized upgrade text, the
    value followed by the price after [" - $"] when the price is true, and
    its height is the base unit times the number of lines of that text: the
    number of its line breaks plus one.  The rendered width plays no
    part. *)
Theorem upgrade_row_height_lines
  (str_of : pyval -> str) (float_truth : str -> bool)
  (upgrades : list pyval) (is_dark_row : bool) (rows : list LayoutRow) :
  upgrade_rows_of str_of float_truth is_dark_row upgrades = Ok rows ->
  map (fun r => (value_text r, height r)) rows
  = map (fun u =>
           (clean_text_for_pdf (upgrade_text_of str_of float_truth u),
            (row_height
             * (Z.of_nat
                  (count_occ N.eq_dec (upgrade_text_of str_of float_truth u)
                     10%N) + 1))%Z))
      upgrades.
Proof. apply upgrade_rows_of_texts. Qed.

Lemma upgrade_row_height_lines_witness :
  let upgrades :=
    [ PDict [ (py "label", PStr (py "RAM"));
              (py "value", PStr (py "16GB" ++ [10%N] ++ py "DDR5"));
              (py "price", PStr (py "100")) ];
      PDict [ (py "label", PStr (py "SSD"));
              (py "value", PStr (py "1TB")) ] ] in
  exists rows,
    upgrade_rows_of (fun _ => []) (fun _ => true) true upgrades = Ok rows
    /\ map (fun r => (value_text r, height r)) rows
       = [ (py "16GB DDR5 - $100", 16%Z); (py "1TB", 8%Z) ].
Proof.
  intros upgrades. eexists. split; [reflexivity|].
  exact (upgrade_row_height_lines (fun _ => []) (fun _ => true) upgrades true
           _ eq_refl).
Defined.

(* ================================================================== *)
(** * More about the row heights *)
(* ================================================================== *)

(** X19. The wrapped-line estimate is strictly above the quotient of the
    text width and the value-column width, and, when it is not 1, at most
    one above it. *)
Theorem wrapped_lines_bounds
  (w : Q) (get_string_width : str -> Q) (fl : Q -> Q) (v : str) (k : Z) :
  ~ (value_width w fl == 0)%Q ->
  wrapped_lines w get_string_width fl v = Ok k ->
  let q := fl (get_string_width v / value_width w fl)%Q in
  (q < inject_Z k)%Q /\ (k = 1%Z \/ (inject_Z k <= q + 1)%Q).
Proof.
  intros Hw Hk q.
  rewrite (wrapped_lines_ok w get_string_width fl Hw v) in Hk.
  injection Hk as <-. fold q.
  pose proof (Qlt_floor q) as Hlt. pose proof (Qfloor_le q) as Hle.
  destruct (Z.max_spec 1 (Qfloor q + 1)) as [[Hc ->]|[Hc ->]].
  - split; [exact Hlt|]. right.
    rewrite inject_Z_plus. apply Qplus_le_l. exact Hle.
  - split; [|left; reflexivity].
    eapply Qlt_le_trans; [exact Hlt|].
    rewrite <- Zle_Qle. exact Hc.
Qed.

Lemma wrapped_lines_bounds_witness :
  let width := fun s : str => (inject_Z (Z.of_nat (List.length s)) * 17)%Q in
  let v := py "8GB RAM" in
  wrapped_lines 210 width (fun x => x) v = Ok 2%Z
  /\ (width v / value_width 210 (fun x => x) < inject_Z 2)%Q.
Proof.
  intros width v. split; [reflexivity|].
  refine (proj1 (wrapped_lines_bounds 210 width (fun x => x) v 2 _ eq_refl)).
  intro H; vm_compute in H; discriminate H.
Defined.

(* ================================================================== *)
(** * Properties of the batch *)
(* ================================================================== *)

Section BatchFacts.

Variable prompt_of : str -> option str -> str -> str.
Variable ChatCompletion_create : str -> result pyval.
Variable json_loads : str -> result pyval.
Variable w : Q.
Variable get_string_width : str -> Q.
Variable fl : Q -> Q.
Variable str_of : pyval -> str.
Variable float_truth : str -> bool.
Variable isalnum : char -> bool.
Variable output : str -> Table -> result unit.

Let create :=
  create_spec_pdf prompt_of ChatCompletion_create json_loads w
    get_string_width fl str_of float_truth.
Let run :=
  generate prompt_of ChatCompletion_create json_loads w get_string_width fl
    str_of float_truth isalnum output.

(** Products that can all be drawn and written are all written, in order. *)
Lemma generate_all (P : RawProductBlock -> Table -> Prop)
  (products : list RawProductBlock) :
  Forall (fun p => exists t,
            create p = Ok t
            /\ output (output_file isalnum (name p)) t = Ok tt
            /\ P p t) products ->
  exists written,
    run products = (written, None)
    /\ Forall2 (fun p o => fst o = output_file isalnum (name p) /\ P p (snd o))
         products written.
Proof.
  induction 1 as [|p products (t & Et & Eo & Hp) _ (written & Er & Hw)].
  - exists []. split; [reflexivity | constructor].
  - exists ((output_file isalnum (name p), t) :: written).
    unfold run, create in *. cbn [generate]. rewrite Et, Eo, Er.
    split; [reflexivity|]. constructor; [split; [reflexivity | exact Hp]|].
    exact Hw.
Qed.

(** A product that cannot be drawn or written ends the loop. *)
Lemma generate_stop (pre post : list RawProductBlock)
  (bad : RawProductBlock) (e : exn) (written : list (str * Table)) :
  run pre = (written, None) ->
  (create bad = Raise e
   \/ exists t, create bad = Ok t
                /\ output (output_file isalnum (name bad)) t = Raise e) ->
  run (pre ++ bad :: post) = (written, Some e).
Proof.
  unfold run, create. revert written.
  induction pre as [|p pre IH]; intros written Hpre Hbad.
  - cbn [app generate] in *. injection Hpre as <-.
    destruct Hbad as [Hbad|(t & Ht & Ho)].
    + rewrite Hbad. reflexivity.
    + rewrite Ht, Ho. reflexivity.
  - cbn [app generate] in *.
    destruct (create_spec_pdf _ _ _ _ _ _ _ _ p) as [t|];
      [|discriminate Hpre].
    destruct (output (output_file isalnum (name p)) t);
      [|discriminate Hpre].
    destruct (generate _ _ _ _ _ _ _ _ _ _ pre) as [wr fail] eqn:Eg.
    injection Hpre as <- ->. rewrite (IH wr eq_refl Hbad). reflexivity.
Qed.

End BatchFacts.

(** X21. The first product whose document cannot be made or cannot be
    written ends the batch: the products before it are written, the
    exception is the one of that product, raised by [create_spec_pdf] or by
    [pdf.output], and no later product is written, whatever it is. *)
Theorem generate_stops_at_first_failure
  (prompt_of : str -> option str -> str -> str)
  (ChatCompletion_create json_loads : str -> result pyval)
  (w : Q) (get_string_width : str -> Q) (fl : Q -> Q)
  (str_of : pyval -> str) (float_truth : str -> bool)
  (isalnum : char -> bool) (output : str -> Table -> result unit)
  (pre post : list RawProductBlock) (bad : RawProductBlock) (e : exn) :
  Forall (fun p => exists t,
            create_spec_pdf prompt_of ChatCompletion_create json_loads w
              get_string_width fl str_of float_truth p = Ok t
            /\ output (output_file isalnum (name p)) t = Ok tt) pre ->
  (create_spec_pdf prompt_of ChatCompletion_create json_loads w
     get_string_width fl str_of float_truth bad = Raise e
   \/ exists t,
        create_spec_pdf prompt_of ChatCompletion_create json_loads w
          get_string_width fl str_of float_truth bad = Ok t
        /\ output (output_file isalnum (name bad)) t = Raise e) ->
  exists written,
    generate prompt_of ChatCompletion_create json_loads w get_string_width
      fl str_of float_truth isalnum output (pre ++ bad :: post)
    = (written, Some e)
    /\ map fst written = map (fun p => output_file isalnum (name p)) pre.
Proof.
  intros Hpre Hbad.
  destruct (generate_all prompt_of ChatCompletion_create json_loads w
              get_string_width fl str_of float_truth isalnum output
              (fun _ _ => True) pre) as (written & Er & Hw).
  { eapply Forall_impl; [|exact Hpre]. intros p (t & Ht & Ho).
    exists t. auto. }
  exists written. split.
  - eapply generate_stop; eassumption.
  - clear Er. induction Hw as [|p o pre' written' [Ho _] _ IH];
      [reflexivity|].
    simpl. rewrite Ho, IH; [reflexivity|].
    inversion Hpre; assumption.
Qed.

Lemma generate_stops_at_first_failure_witness :
  let good := {| name := py "Model A"; price := None;
                 specifications := [[py "Memory"; py "8GB"]] |} in
  let bad := {| name := py "Model B"; price := None;
                specifications := [[py "Memory"; py "16GB"]] |} in
  let down := fun _ : str => @Raise pyval (ServiceError (py "timeout")) in
  let output := fun (file : str) (_ : Table) =>
    if eqb file (py "Model B_spec.pdf") then @Raise unit OSError
    else Ok tt in
  exists written,
    generate (fun n _ _ => n) down down 210 (fun _ => 0%Q) (fun x => x)
      (fun _ => []) (fun _ => true) (fun _ => true) output [good; bad; good]
    = (written, Some OSError)
    /\ map fst written = [py "Model A_spec.pdf"].
Proof.
  intros good bad down output.
  refine (generate_stops_at_first_failure (fun n _ _ => n) down down 210
            (fun _ => 0%Q) (fun x => x) (fun _ => []) (fun _ => true)
            (fun _ => true) output [good] [good] bad OSError _ _).
  - constructor; [|constructor]. eexists. split; reflexivity.
  - right. eexists. split; reflexivity.
Defined.



Section FileNameFacts.

Local Open Scope N_scope.

Lemma lstrip_of_all (chars a t : str) :
  Forall (fun c => mem c chars = true) a ->
  lstrip_of chars (a ++ t) = lstrip_of chars t.
Proof.
  induction 1 as [|c a Hc _ IH]; [reflexivity|].
  simpl. rewrite Hc. exact IH.
Qed.

Lemma lstrip_of_head (chars t : str) (x : char) :
  mem x chars = false -> lstrip_of chars (x :: t) = x :: t.
Proof. intros H. simpl. rewrite H. reflexivity. Qed.

(** Stripping characters off both ends of a text that is wrapped in them. *)
Lemma strip_of_core (chars a b t' t'' : str) (x y : char) :
  Forall (fun c => mem c chars = true) a ->
  Forall (fun c => mem c chars = true) b ->
  mem x chars = false -> mem y chars = false ->
  x :: t' = t'' ++ [y] ->
  strip_of chars (a ++ (x :: t') ++ b) = x :: t'.
Proof.
  intros Ha Hb Hx Hy E. unfold strip_of.
  rewrite lstrip_of_all by exact Ha.
  change ((x :: t') ++ b) with (x :: (t' ++ b)).
  rewrite lstrip_of_head by exact Hx.
  change (x :: t' ++ b) with ((x :: t') ++ b).
  rewrite rev_app_distr, E, rev_app_distr. simpl rev at 2. simpl app at 2.
  rewrite lstrip_of_all by (apply Forall_rev; exact Hb).
  rewrite lstrip_of_head by exact Hy.
  change (y :: rev t'') with (rev [y] ++ rev t'').
  rewrite <- rev_app_distr, rev_involutive. reflexivity.
Qed.

Lemma strip_of_bare (chars t' t'' : str) (x y : char) :
  mem x chars = false -> mem y chars = false ->
  x :: t' = t'' ++ [y] ->
  strip_of chars (x :: t') = x :: t'.
Proof.
  intros Hx Hy E.
  pose proof (strip_of_core chars [] [] t' t'' x y (Forall_nil _)
                (Forall_nil _) Hx Hy E) as H.
  simpl app in H. rewrite app_nil_r in H. exact H.
Qed.

Lemma lstrip_all (a t : str) :
  Forall (fun c => isspace c = true) a -> lstrip (a ++ t) = lstrip t.
Proof.
  induction 1 as [|c a Hc _ IH]; [reflexivity|].
  simpl. rewrite Hc. exact IH.
Qed.

Lemma strip_core (a b t' t'' : str) (x y : char) :
  Forall (fun c => isspace c = true) a ->
  Forall (fun c => isspace c = true) b ->
  isspace x = false -> isspace y = false ->
  x :: t' = t'' ++ [y] ->
  strip (a ++ (x :: t') ++ b) = x :: t'.
Proof.
  intros Ha Hb Hx Hy E. unfold strip, rstrip.
  rewrite lstrip_all by exact Ha.
  change ((x :: t') ++ b) with (x :: (t' ++ b)).
  simpl lstrip. rewrite Hx.
  change (x :: t' ++ b) with ((x :: t') ++ b).
  rewrite rev_app_distr, E, rev_app_distr. simpl rev at 2. simpl app at 2.
  rewrite lstrip_all by (apply Forall_rev; exact Hb).
  simpl lstrip. rewrite Hy.
  change (y :: rev t'') with (rev [y] ++ rev t'').
  rewrite <- rev_app_distr, rev_involutive. reflexivity.
Qed.

End FileNameFacts.

(** X23. A path typed with white space around it and wrapped in double
    quotes or in apostrophes comes out bare, when it neither starts nor ends
    with a quote character; so does such a path typed without quotes, when
    it neither starts nor ends with white space. *)
Theorem typed_path_unquotes (a b p' p'' : str) (q x y : char) :
  Forall (fun c => isspace c = true) a ->
  Forall (fun c => isspace c = true) b ->
  q = 34%N \/ q = 39%N ->
  x <> 34%N -> x <> 39%N -> y <> 34%N -> y <> 39%N ->
  x :: p' = p'' ++ [y] ->
  typed_path (a ++ [q] ++ (x :: p') ++ [q] ++ b) = x :: p'
  /\ (isspace x = false -> isspace y = false ->
      typed_path (a ++ (x :: p') ++ b) = x :: p').
Proof.
  intros Ha Hb Hq Hx1 Hx2 Hy1 Hy2 E.
  assert (M : forall c d : char, c <> d -> mem c [d] = false).
  { intros c d H. simpl. rewrite orb_false_r. apply N.eqb_neq, H. }
  assert (Hsq : forall c, c = 34%N \/ c = 39%N -> isspace c = false)
    by (intros c [->| ->]; reflexivity).
  assert (F34 : Forall (fun c => mem c [34%N] = true) [34%N])
    by (constructor; [reflexivity | constructor]).
  assert (F39 : Forall (fun c => mem c [39%N] = true) [39%N])
    by (constructor; [reflexivity | constructor]).
  assert (H34 : strip_of [34%N] (x :: p') = x :: p')
    by (apply (strip_of_bare [34%N] p' p'' x y); auto).
  assert (H39 : strip_of [39%N] (x :: p') = x :: p')
    by (apply (strip_of_bare [39%N] p' p'' x y); auto).
  split.
  - unfold typed_path.
    transitivity
      (strip_of [39%N] (strip_of [34%N] (q :: (x :: p') ++ [q]))).
    { do 2 f_equal.
      replace (a ++ [q] ++ (x :: p') ++ [q] ++ b)
        with (a ++ (q :: (x :: p') ++ [q]) ++ b)
        by (simpl; rewrite <- !app_assoc; reflexivity).
      apply (strip_core a b ((x :: p') ++ [q]) (q :: x :: p') q q); auto. }
    destruct Hq; subst q.
    + transitivity (strip_of [39%N] (x :: p')); [|exact H39].
      f_equal.
      exact (strip_of_core [34%N] [34%N] [34%N] p' p'' x y F34 F34
               (M _ _ Hx1) (M _ _ Hy1) E).
    + transitivity (strip_of [39%N] (39%N :: (x :: p') ++ [39%N])).
      * f_equal.
        apply (strip_of_bare [34%N] ((x :: p') ++ [39%N]) (39%N :: x :: p')
                 39%N 39%N); reflexivity.
      * exact (strip_of_core [39%N] [39%N] [39%N] p' p'' x y F39 F39
                 (M _ _ Hx2) (M _ _ Hy2) E).
  - intros Hsx Hsy. unfold typed_path.
    rewrite (strip_core a b p' p'' x y); auto.
    rewrite H34. exact H39.
Qed.

Lemma typed_path_unquotes_witness :
  typed_path (py "  '/home/user/price list.md' ")
  = py "/home/user/price list.md".
Proof.
  assert (Ha : Forall (fun c => isspace c = true) (py "  "))
    by (constructor; [reflexivity | constructor; [reflexivity | constructor]]).
  assert (Hb : Forall (fun c => isspace c = true) (py " "))
    by (constructor; [reflexivity | constructor]).
  refine (proj1 (typed_path_unquotes (py "  ") (py " ")
                   (py "home/user/price list.md")
                   (py "/home/user/price list.m") 39%N 47%N 100%N
                   Ha Hb (or_intror eq_refl) _ _ _ _ eq_refl));
    discriminate.
Defined.

(** X24. When the slash, the backslash and the dot are no alphanumeric
    characters, the file name of a product holds no slash and no backslash,
    its only dots are those of the extension, and cleaning a cleaned name
    changes nothing. *)
Theorem output_file_is_plain (isalnum : char -> bool) (product_name : str) :
  isalnum 47%N = false -> isalnum 92%N = false -> isalnum 46%N = false ->
  ~ In 47%N (output_file isalnum product_name)
  /\ ~ In 92%N (output_file isalnum product_name)
  /\ ~ In 46%N (safe_filename isalnum product_name)
  /\ safe_filename isalnum (safe_filename isalnum product_name)
     = safe_filename isalnum product_name.
Proof.
  intros H1 H2 H3.
  assert (Hnot : forall c, isalnum c = false -> mem c (py " -_") = false ->
                           ~ In c (safe_filename isalnum product_name)).
  { intros c Ha Hm Hin. unfold safe_filename in Hin.
    apply filter_In in Hin as [_ Hin]. rewrite Ha, Hm in Hin.
    discriminate Hin. }
  assert (Hext : forall c, ~ In c (safe_filename isalnum product_name) ->
                           mem c (py "_spec.pdf") = false ->
                           ~ In c (output_file isalnum product_name)).
  { intros c Hs Hm Hin. unfold output_file in Hin.
    apply in_app_or in Hin as [Hin|Hin]; [exact (Hs Hin)|].
    apply mem_In in Hin. congruence. }
  split; [apply Hext; [apply Hnot|]; auto|].
  split; [apply Hext; [apply Hnot|]; auto|].
  split; [apply Hnot; auto|].
  unfold safe_filename. rewrite filter_filter.
  apply filter_ext. intros c. destruct (isalnum c || mem c (py " -_"));
    reflexivity.
Qed.

Lemma output_file_is_plain_witness :
  let isalnum := fun c : char =>
    ((48 <=? c) && (c <=? 57) || (65 <=? c) && (c <=? 90)
     || (97 <=? c) && (c <=? 122))%N in
  output_file isalnum (py "../Model A/B: 15.6" ++ [34%N])
  = py "Model AB 156_spec.pdf"
  /\ ~ In 47%N (output_file isalnum (py "../Model A/B: 15.6" ++ [34%N])).
Proof.
  intros isalnum. split; [reflexivity|].
  exact (proj1 (output_file_is_plain isalnum
                  (py "../Model A/B: 15.6" ++ [34%N])
                  eq_refl eq_refl eq_refl)).
Defined.

(* ================================================================== *)
(** * The sanitizer, character by character *)
(* ================================================================== *)

Section SubstitutionFacts.

Local Open Scope N_scope.










(** ** Substitutions that cannot build a key *)

Section Foreign.

Variable f : char -> str.
Variable key : str.

(** Every character is kept or replaced by a non-empty text that shares no
    character with the key. *)
Hypothesis foreign :
  forall c, f c = [c] \/ (f c <> [] /\ forall x, In x (f c) -> ~ In x key).




End Foreign.



End SubstitutionFacts.


